(** * tc/try_catch.hpp: the leveled logging dispatcher and the try/catch macro layer

    A shallow embedding of [include/tc/try_catch.hpp].  C++ code that reads
    and writes the process becomes a function on an explicit process state;
    code that may raise or terminate the process lives in a small
    state-and-outcome monad.  The compile-time switch
    [TC_EXCEPTIONS_ENABLED] is a boolean argument of every macro that
    consults it, so both expansions of the header are present side by
    side. *)

From Stdlib Require Import ZArith String Ascii List Bool Lia DecimalString.
Import ListNotations.
Local Open Scope Z_scope.
Local Open Scope string_scope.

(** ** C-level data *)

(** [const char*]: a possibly null pointer to a NUL-terminated string. *)
Definition cstr := option string.

(** [p ? p : dflt] on a [const char*]. *)
Definition or_default (p : cstr) (dflt : string) : string :=
  match p with
  | Some s => s
  | None => dflt
  end.

(** [sub] occurs in [s]. *)
Definition contains (s sub : string) : Prop := exists pre post, s = pre ++ sub ++ post.

(** The ["\n"] of the format strings. *)
Definition LF : string := String "010"%char EmptyString.

(** What [%d] prints for an [int]. *)
Definition fmt_d (n : Z) : string := NilZero.string_of_int (Z.to_int n).

(** One variadic argument, and the [va_list] a sink receives. *)
Inductive va_arg : Type :=
| va_int (n : Z)
| va_str (s : cstr).

Definition va_list := list va_arg.

(** [__FILE__], [__LINE__] and [__func__] at the place a macro is used. *)
Record source_location : Type := SourceLocation {
  loc_file : string;
  loc_line : Z;
  loc_func : string
}.

(** ** Exception objects and handler types *)

(** Class types that can be thrown and named in a handler.  The two
    standard classes the header and its tests mention are spelled out;
    any other class is given by its name and, when it has one, its
    (single, public) base. *)
Inductive cpp_class : Type :=
| std_exception
| std_runtime_error
| user_root (name : string)
| user_derived (name : string) (base : cpp_class).

Inductive cpp_type : Type :=
| ty_int
| ty_class (c : cpp_class).

(** A thrown object: [throw 42] or [throw C("what")]. *)
Inductive exn : Type :=
| thrown_int (v : Z)
| thrown_obj (c : cpp_class) (what : string).

Fixpoint class_eqb (a b : cpp_class) : bool :=
  match a, b with
  | std_exception, std_exception => true
  | std_runtime_error, std_runtime_error => true
  | user_root n1, user_root n2 => String.eqb n1 n2
  | user_derived n1 b1, user_derived n2 b2 => String.eqb n1 n2 && class_eqb b1 b2
  | _, _ => false
  end.

(** [derives c t]: [t] is [c] itself or one of its bases, which is when a
    handler for [const t&] accepts an object of dynamic class [c]. *)
Fixpoint derives (c t : cpp_class) : bool :=
  class_eqb c t ||
  match c with
  | std_exception => false
  | std_runtime_error => class_eqb std_exception t
  | user_root _ => false
  | user_derived _ b => derives b t
  end.

Definition dynamic_type (e : exn) : cpp_type :=
  match e with
  | thrown_int _ => ty_int
  | thrown_obj c _ => ty_class c
  end.

(** ** The logging state *)

(** [enum class log_level : int].  A scoped enumeration with a fixed
    underlying type holds any value of that type, so a level is its [int];
    the two [static_cast]s are the projection and the constructor.  No
    arithmetic is done on levels, only [<], so the width of [int] plays no
    part. *)
Record log_level : Type := LogLevel { level_value : Z }.

Definition static_cast_int (lvl : log_level) : Z := level_value lvl.
Definition static_cast_log_level (n : Z) : log_level := LogLevel n.

(** A sink is a function pointer: the address of [default_stderr_sink], or
    of one of the program's own functions. *)
Inductive sink_ref : Type :=
| default_stderr_sink_ref
| user_sink_ref (id : nat).

(** [log_sink_t]: a nullable function pointer. *)
Definition log_sink_t := option sink_ref.

(** What a sink writes to: the standard error stream, as the header's own
    sink does, or the program's memory [U], as the sink of the logging test
    does.  A sink is the program's code, not the dispatcher's; the body of a
    sink that only writes is a transformer of this part of the process.  A
    sink that does more, that calls [set_level] or [set_sink], raises or
    ends the process, is a [sink_code], dispatched by [any_sink]. *)
Record world (U : Type) : Type := World {
  stderr : string;
  vars : U
}.
Arguments World {U} _ _.
Arguments stderr {U} _.
Arguments vars {U} _.

Definition log_sink_fn (U : Type) : Type :=
  log_level -> cstr -> Z -> cstr -> cstr -> va_list -> world U -> world U.

(** One call made through the sink pointer, with the arguments passed. *)
Record sink_call : Type := SinkCall {
  call_target : sink_ref;
  call_level : log_level;
  call_file : cstr;
  call_line : Z;
  call_func : cstr;
  call_fmt : cstr;
  call_ap : va_list
}.

(** The process: the two atomics of the header, the exceptions being
    handled (innermost first), the record of calls made through the sink
    pointer, and everything else.  The model is of one thread, for which a
    relaxed atomic load or store is a read or write of a variable. *)
Record proc (U : Type) : Type := Proc {
  runtime_log_level : Z;
  runtime_sink : log_sink_t;
  handled : list exn;
  sink_calls : list sink_call;
  env : world U
}.
Arguments Proc {U} _ _ _ _ _.
Arguments runtime_log_level {U} _.
Arguments runtime_sink {U} _.
Arguments handled {U} _.
Arguments sink_calls {U} _.
Arguments env {U} _.

Definition fputs_stderr {U} (s : string) (w : world U) : world U :=
  World (stderr w ++ s) (vars w).

(** ** Code that may raise or terminate the process *)

(** How a piece of C++ code ends: it returns, it leaves by a raised
    exception, or the process is gone ([std::abort], [std::terminate]).
    The state that goes with [Terminated] is the process at the call of
    [std::abort] or [std::terminate]; what the terminate handler of the
    implementation prints after that call is not in the model. *)
Inductive outcome (A : Type) : Type :=
| Normal (a : A)
| Raised (e : exn)
| Terminated.
Arguments Normal {A} _.
Arguments Raised {A} _.
Arguments Terminated {A}.

Definition M (U A : Type) : Type := proc U -> outcome A * proc U.

Definition ret {U A} (a : A) : M U A := fun p => (Normal a, p).

Definition bind {U A B} (c : M U A) (k : A -> M U B) : M U B :=
  fun p =>
    match c p with
    | (Normal a, p1) => k a p1
    | (Raised e, p1) => (Raised e, p1)
    | (Terminated, p1) => (Terminated, p1)
    end.

Declare Scope cpp_scope.
Delimit Scope cpp_scope with cpp.
Notation "x <- c ;; k" := (bind c (fun x => k))
  (at level 61, c at next level, right associativity) : cpp_scope.
Notation "c ;; k" := (bind c (fun _ => k))
  (at level 61, right associativity) : cpp_scope.
Local Open Scope cpp_scope.

(** A [void] function on the process, as a statement. *)
Definition exec {U} (f : proc U -> proc U) : M U unit := fun p => (Normal tt, f p).

(** [(void)(expr);] *)
Definition discard {U A} (c : M U A) : M U unit := _ <- c ;; ret tt.

(** [throw e] *)
Definition cpp_throw {U A} (e : exn) : M U A := fun p => (Raised e, p).

(** [std::abort()], and [std::terminate()] with its default handler. *)
Definition std_abort {U A} : M U A := fun p => (Terminated, p).

(** [throw;]: re-raises the exception being handled; with none being
    handled it is [std::terminate()]. *)
Definition cpp_rethrow {U A} : M U A :=
  fun p =>
    match handled p with
    | e :: _ => (Raised e, p)
    | [] => (Terminated, p)
    end.

(** A function declared [noexcept]: an exception that would leave it is
    [std::terminate()]; the state is the one at that call. *)
Definition cpp_noexcept {U A} (c : M U A) : M U A :=
  fun p =>
    match c p with
    | (Raised _, p1) => (Terminated, p1)
    | r => r
    end.

(** The process after [s] has been written to the standard error stream. *)
Definition write_stderr {U} (s : string) (p : proc U) : proc U :=
  Proc (runtime_log_level p) (runtime_sink p) (handled p) (sink_calls p)
       (fputs_stderr s (env p)).

Definition fprintf_stderr {U} (s : string) : M U unit := exec (write_stderr s).

(** ** [namespace tc::detail] *)

Module detail.

(** What the [fprintf] of [default_abort_noexcept] writes. *)
Definition abort_diagnostic (file : cstr) (line : Z) (func msg : cstr) : string :=
  "[tc] fatal: exception thrown but exceptions are disabled" ++ LF ++
  "  at " ++ or_default file "(unknown)" ++ ":" ++ fmt_d line ++
  " in " ++ or_default func "(unknown)" ++ LF ++
  "  msg: " ++ or_default msg "(none)" ++ LF.

(** [default_abort_noexcept]: the diagnostic, [fflush], [std::abort()]. *)
Definition default_abort_noexcept {U} (file : cstr) (line : Z) (func msg : cstr) : M U unit :=
  fprintf_stderr (abort_diagnostic file line func msg) ;;
  std_abort.

Definition trace : log_level := LogLevel 0.
Definition debug : log_level := LogLevel 1.
Definition info : log_level := LogLevel 2.
Definition warn : log_level := LogLevel 3.
Definition error : log_level := LogLevel 4.
Definition off : log_level := LogLevel 5.

(** The [switch] of [default_stderr_sink]; ["LOG"] stays for a value that
    is none of the enumerators. *)
Definition level_name (lvl : log_level) : string :=
  match level_value lvl with
  | 0 => "TRACE"
  | 1 => "DEBUG"
  | 2 => "INFO"
  | 3 => "WARN"
  | 4 => "ERROR"
  | 5 => "OFF"
  | _ => "LOG"
  end.

Section Logging.
Context {U : Type}.

(** [vfprintf]'s rendering of a format string against a [va_list]. *)
Variable vformat : string -> va_list -> string.

(** The bodies of the program's own sink functions. *)
Variable user_sinks : nat -> log_sink_fn U.

Definition default_stderr_sink : log_sink_fn U :=
  fun lvl file line func fmt ap w =>
    let name := level_name lvl in
    let w1 := fputs_stderr ("[" ++ name ++ "] " ++ or_default file "(unknown)" ++ ":"
                            ++ fmt_d line ++ " " ++ or_default func "(unknown)" ++ ": ") w in
    let w2 := fputs_stderr (vformat (or_default fmt "(null)") ap) w1 in
    fputs_stderr LF w2.

(** The function a sink pointer points to. *)
Definition sink_body (s : sink_ref) : log_sink_fn U :=
  match s with
  | default_stderr_sink_ref => default_stderr_sink
  | user_sink_ref id => user_sinks id
  end.

(** The initial values of the two function-local statics. *)
Definition initial_log_level (TC_DEBUG : bool) : Z :=
  if TC_DEBUG then static_cast_int debug else static_cast_int info.

Definition initial_proc (TC_DEBUG : bool) (u : U) : proc U :=
  Proc (initial_log_level TC_DEBUG) (Some default_stderr_sink_ref) [] [] (World "" u).

Definition set_log_level (lvl : log_level) (p : proc U) : proc U :=
  Proc (static_cast_int lvl) (runtime_sink p) (handled p) (sink_calls p) (env p).

Definition get_log_level (p : proc U) : log_level :=
  static_cast_log_level (runtime_log_level p).

Definition set_log_sink (sink : log_sink_t) (p : proc U) : proc U :=
  Proc (runtime_log_level p) sink (handled p) (sink_calls p) (env p).

Definition get_log_sink (p : proc U) : log_sink_t := runtime_sink p.

(** The indirect call [s(lvl, file, line, func, fmt, ap)] of a sink that
    only writes; [any_sink.call_sink] is the call of any function. *)
Definition call_sink (s : sink_ref) (lvl : log_level) (file : cstr) (line : Z)
           (func fmt : cstr) (ap : va_list) (p : proc U) : proc U :=
  Proc (runtime_log_level p) (runtime_sink p) (handled p)
       (sink_calls p ++ [SinkCall s lvl file line func fmt ap])
       (sink_body s lvl file line func fmt ap (env p)).

Definition vlog_dispatch (lvl : log_level) (file : cstr) (line : Z)
           (func fmt : cstr) (ap : va_list) (p : proc U) : proc U :=
  if (static_cast_int lvl <? runtime_log_level p)%Z then p
  else
    match runtime_sink p with
    | Some s => call_sink s lvl file line func fmt ap p
    | None => p
    end.

(** [logf]: [va_start], the dispatch, [va_end]. *)
Definition logf (lvl : log_level) (file : cstr) (line : Z)
           (func fmt : cstr) (args : va_list) (p : proc U) : proc U :=
  vlog_dispatch lvl file line func fmt args p.

(** [TC_LOG_TRACE] ... [TC_LOG_ERROR] at a source location. *)
Definition TC_LOG (lvl : log_level) (loc : source_location) (fmt : string)
           (args : va_list) (p : proc U) : proc U :=
  logf lvl (Some (loc_file loc)) (loc_line loc) (Some (loc_func loc)) (Some fmt) args p.

Definition TC_LOG_TRACE := TC_LOG trace.
Definition TC_LOG_DEBUG := TC_LOG debug.
Definition TC_LOG_INFO := TC_LOG info.
Definition TC_LOG_WARN := TC_LOG warn.
Definition TC_LOG_ERROR := TC_LOG error.

End Logging.

(** The five levels an event can be logged at through the macros. *)
Definition event_levels : list log_level := [trace; debug; info; warn; error].

End detail.

(** [namespace tc::log]: the runtime control API. *)
Module log.
Section Api.
Context {U : Type}.
Definition set_level (v : log_level) (p : proc U) : proc U := detail.set_log_level v p.
Definition get_level (p : proc U) : log_level := detail.get_log_level p.
Definition set_sink (s : log_sink_t) (p : proc U) : proc U := detail.set_log_sink s p.
Definition get_sink (p : proc U) : log_sink_t := detail.get_log_sink p.
End Api.
End log.

(** ** Native [try] / [catch] *)

(** [catch (const T& n)] or [catch (...)]. *)
Inductive catch_decl : Type :=
| catch_type (T : cpp_type)
| catch_ellipsis.

Definition catch_matches (d : catch_decl) (e : exn) : bool :=
  match d with
  | catch_ellipsis => true
  | catch_type ty_int =>
      match e with
      | thrown_int _ => true
      | thrown_obj _ _ => false
      end
  | catch_type (ty_class t) =>
      match e with
      | thrown_int _ => false
      | thrown_obj c _ => derives c t
      end
  end.

(** The first handler, in declaration order, that accepts [e]. *)
Fixpoint find_handler {U} (hs : list (catch_decl * M U unit)) (e : exn)
  : option (M U unit) :=
  match hs with
  | [] => None
  | (d, h) :: rest => if catch_matches d e then Some h else find_handler rest e
  end.

Definition push_handled {U} (e : exn) (p : proc U) : proc U :=
  Proc (runtime_log_level p) (runtime_sink p) (e :: handled p) (sink_calls p) (env p).

Definition pop_handled {U} (p : proc U) : proc U :=
  Proc (runtime_log_level p) (runtime_sink p) (tl (handled p)) (sink_calls p) (env p).

(** A handler body run for [e]: [e] is the exception being handled from
    the entry of the handler until the handler is left, by any path. *)
Definition run_handler {U} (e : exn) (h : M U unit) : M U unit :=
  fun p =>
    match h (push_handled e p) with
    | (r, p1) => (r, pop_handled p1)
    end.

(** [try { body } catch ... { ... } ...] *)
Definition cpp_try {U} (body : M U unit) (hs : list (catch_decl * M U unit)) : M U unit :=
  fun p =>
    match body p with
    | (Raised e, p1) =>
        match find_handler hs e with
        | Some h => run_handler e h p1
        | None => (Raised e, p1)
        end
    | r => r
    end.

(** [if (c1) { b1 } else if (c2) { b2 } ...], conditions being constants. *)
Fixpoint cpp_if_chain {U} (branches : list (bool * M U unit)) : M U unit :=
  match branches with
  | [] => ret tt
  | (c, b) :: rest => if c then b else cpp_if_chain rest
  end.

(** ** Locals of a lambda that captures by reference *)

Definition with_vars {U V} (v : V) (p : proc U) : proc V :=
  Proc (runtime_log_level p) (runtime_sink p) (handled p) (sink_calls p)
       (World (stderr (env p)) v).

(** Code of the enclosing scope, run where a local of type [L] is live. *)
Definition outer {L U A} (c : M U A) : M (L * U) A :=
  fun p =>
    let l := fst (vars (env p)) in
    match c (with_vars (snd (vars (env p))) p) with
    | (r, p1) => (r, with_vars (l, vars (env p1)) p1)
    end.

Definition get_local {L U} : M (L * U) L :=
  fun p => (Normal (fst (vars (env p))), p).

Definition set_local {L U} (l : L) : M (L * U) unit :=
  exec (fun p => with_vars (l, snd (vars (env p))) p).

(** [{ L x = init; c }]: the local lives for the block and is gone after. *)
Definition with_local {L U A} (init : L) (c : M (L * U) A) : M U A :=
  fun p =>
    match c (with_vars (init, vars (env p)) p) with
    | (r, p1) => (r, with_vars (snd (vars (env p1))) p1)
    end.

(** ** The header's macros *)

(** The shape of [TC_ABORT(msg)] at a source location; the header's
    definition stands unless the includer defined the macro first. *)
Definition abort_hook (U : Type) : Type := source_location -> string -> M U unit.

Definition TC_ABORT_default {U} : abort_hook U :=
  fun loc msg =>
    detail.default_abort_noexcept (Some (loc_file loc)) (loc_line loc)
                                        (Some (loc_func loc)) (Some msg).

(** A handler clause as written with the macros. *)
Inductive tc_clause (U : Type) : Type :=
| TC_CATCH (T : cpp_type) (body : M U unit)
| TC_CATCH_ALL (body : M U unit).
Arguments TC_CATCH {U} _ _.
Arguments TC_CATCH_ALL {U} _.

Definition clause_body {U} (c : tc_clause U) : M U unit :=
  match c with
  | TC_CATCH _ b => b
  | TC_CATCH_ALL b => b
  end.

Section Macros.
(** [#if TC_EXCEPTIONS_ENABLED] *)
Variable TC_EXCEPTIONS_ENABLED : bool.

(** [TC_THROW(ex)]: [throw(ex)], or [TC_ABORT] with a fixed message; the
    operand is dropped unevaluated by the second expansion. *)
Definition TC_THROW {U} (TC_ABORT : abort_hook U) (loc : source_location) (ex : exn)
  : M U unit :=
  if TC_EXCEPTIONS_ENABLED then cpp_throw ex
  else TC_ABORT loc "TC_THROW called with exceptions disabled".

Definition TC_RETHROW {U} (TC_ABORT : abort_hook U) (loc : source_location) : M U unit :=
  if TC_EXCEPTIONS_ENABLED then cpp_rethrow
  else TC_ABORT loc "TC_RETHROW called with exceptions disabled".

(** [TC_CATCH(T, n)] is [catch (T n)]; [TC_CATCH_ALL()] is [catch (...)]. *)
Definition expand_catch {U} (c : tc_clause U) : catch_decl * M U unit :=
  match c with
  | TC_CATCH T b => (catch_type T, b)
  | TC_CATCH_ALL b => (catch_ellipsis, b)
  end.

(** Both are [else if (false)] when exceptions are disabled. *)
Definition expand_else_if {U} (c : tc_clause U) : bool * M U unit :=
  (false, clause_body c).

(** The branches of [TC_TRY { body } clauses] when exceptions are
    disabled: [if (true) { body }] and one [else if (false)] a clause. *)
Definition disabled_branches {U} (body : M U unit) (clauses : list (tc_clause U))
  : list (bool * M U unit) :=
  (true, body) :: map expand_else_if clauses.

(** [TC_TRY { body } clauses] *)
Definition TC_TRY {U} (body : M U unit) (clauses : list (tc_clause U)) : M U unit :=
  if TC_EXCEPTIONS_ENABLED then cpp_try body (map expand_catch clauses)
  else cpp_if_chain (disabled_branches body clauses).

(** [TC_NOEXCEPT_IF_NOEXCEPTIONS] on a function. *)
Definition TC_NOEXCEPT_IF_NOEXCEPTIONS {U A} (f : M U A) : M U A :=
  if TC_EXCEPTIONS_ENABLED then f else cpp_noexcept f.

(** [TC_GUARD(expr)]: the lambda with its local [ok], called at once.  The
    macro pastes [expr] into the lambda, below [bool ok = true;], so [expr]
    is code of the scope in which [ok] is that local: an expression that
    names [ok] reads and writes the local of the guard, and an expression
    [c] that does not name it is [outer c]. *)
Definition TC_GUARD {U A} (expr : M (bool * U) A) : M U bool :=
  TC_NOEXCEPT_IF_NOEXCEPTIONS
    (with_local true
       (TC_TRY (discard expr)
               [ TC_CATCH (ty_class std_exception) (set_local false);
                 TC_CATCH_ALL (set_local false) ] ;;
        get_local)).

(** [may_throw] of the example program.  The product is taken in [Z]: it
    is the C++ value whenever that fits an [int], and C++ leaves the
    overflowing product undefined. *)
Definition may_throw {U} (TC_ABORT : abort_hook U) (loc : source_location) (x : Z)
  : M U Z :=
  if TC_EXCEPTIONS_ENABLED then
    (if (x <? 0)%Z
     then TC_THROW TC_ABORT loc (thrown_obj std_runtime_error "x must be non-negative")
     else ret tt) ;;
    ret (x * 2)%Z
  else
    if (x <? 0)%Z then ret (-1)%Z else ret (x * 2)%Z.

(** [may_throw] of the guard test. *)
Definition may_throw_test {U} (TC_ABORT : abort_hook U) (loc : source_location) (x : Z)
  : M U Z :=
  if TC_EXCEPTIONS_ENABLED then
    (if (x <? 0)%Z
     then TC_THROW TC_ABORT loc (thrown_obj std_runtime_error "neg")
     else ret tt) ;;
    ret x
  else ret x.

End Macros.

(** ** Build-time configuration *)

(** The value of a macro name inside [#if]: a name that is not defined
    counts as 0. *)
Definition pp_value (m : option Z) : Z :=
  match m with
  | Some v => v
  | None => 0
  end.

(** [#if v] *)
Definition pp_true (v : Z) : bool := negb (v =? 0)%Z.

(** What the build defines before the header is included. *)
Record build_defines : Type := BuildDefines {
  def_NDEBUG : bool;
  def_TC_DEBUG : option Z;
  def_TC_RELEASE : option Z;
  def_TC_ENABLE_LOGGING : option Z;
  def_TC_ENABLE_ERROR_LOGGING : option Z;
  def_TC_EXCEPTIONS_ENABLED : option Z
}.

(** The feature indicators of the toolchain. *)
Record toolchain : Type := Toolchain {
  has_cpp_exceptions : bool;      (* defined(__cpp_exceptions) *)
  has_EXCEPTIONS : bool;          (* defined(__EXCEPTIONS) *)
  has_MSC_VER : bool;             (* defined(_MSC_VER) *)
  has_CPPUNWIND : bool;           (* defined(_CPPUNWIND) *)
  val_HAS_EXCEPTIONS : option Z;  (* _HAS_EXCEPTIONS, when defined *)
  is_gnu : bool                   (* defined(__GNUC__) || defined(__clang__) *)
}.

(** [TC_DEBUG] and [TC_RELEASE] after the build-type detection: set from
    [NDEBUG] when the build defined neither, left alone otherwise. *)
Definition detect_TC_DEBUG (d : build_defines) : option Z :=
  match def_TC_DEBUG d, def_TC_RELEASE d with
  | None, None => if def_NDEBUG d then Some 0%Z else Some 1%Z
  | dbg, _ => dbg
  end.

Definition detect_TC_RELEASE (d : build_defines) : option Z :=
  match def_TC_DEBUG d, def_TC_RELEASE d with
  | None, None => if def_NDEBUG d then Some 1%Z else Some 0%Z
  | _, rel => rel
  end.

(** [#if TC_DEBUG] *)
Definition TC_DEBUG_on (d : build_defines) : bool := pp_true (pp_value (detect_TC_DEBUG d)).

(** [TC_EXCEPTIONS_ENABLED] after the exception support detection. *)
Definition detect_TC_EXCEPTIONS_ENABLED (d : build_defines) (t : toolchain) : Z :=
  match def_TC_EXCEPTIONS_ENABLED d with
  | Some v => v
  | None =>
      if has_cpp_exceptions t || has_EXCEPTIONS t then 1%Z
      else if has_MSC_VER t && has_CPPUNWIND t then 1%Z
      else
        match val_HAS_EXCEPTIONS t with
        | Some v => if (v =? 1)%Z then 1%Z else 0%Z
        | None => 0%Z
        end
  end.

(** [TC_ENABLE_LOGGING]: 1 in debug, 0 otherwise, unless the build set it. *)
Definition detect_TC_ENABLE_LOGGING (d : build_defines) : Z :=
  match def_TC_ENABLE_LOGGING d with
  | Some v => v
  | None => if TC_DEBUG_on d then 1%Z else 0%Z
  end.

(** [TC_ENABLE_ERROR_LOGGING]: 1 unless the build set it. *)
Definition detect_TC_ENABLE_ERROR_LOGGING (d : build_defines) : Z :=
  match def_TC_ENABLE_ERROR_LOGGING d with
  | Some v => v
  | None => 1%Z
  end.

(** The process of a build at start-up. *)
Definition boot {U} (d : build_defines) (u : U) : proc U :=
  detail.initial_proc (TC_DEBUG_on d) u.

(** ** Branch prediction hints *)

(** [!!(x)] on an [int]. *)
Definition not_not (x : Z) : Z := if (x =? 0)%Z then 0%Z else 1%Z.

(** [__builtin_expect(v, expected)]: the value of [v]. *)
Definition builtin_expect (v expected : Z) : Z := v.

Definition TC_LIKELY (t : toolchain) (x : Z) : Z :=
  if is_gnu t then builtin_expect (not_not x) 1 else x.

Definition TC_UNLIKELY (t : toolchain) (x : Z) : Z :=
  if is_gnu t then builtin_expect (not_not x) 0 else x.

(** ** Compatibility logging and the ready-made handlers *)

(** [e.what()] for an object caught as [const std::exception&]. *)
Definition what_of (e : exn) : cstr :=
  match e with
  | thrown_obj _ w => Some w
  | thrown_int _ => None
  end.

(** [what()] of the object the running handler was entered for. *)
Definition current_what {U} (p : proc U) : cstr :=
  match handled p with
  | e :: _ => what_of e
  | [] => None
  end.

Section Helpers.
Context {U : Type}.
Variable vformat : string -> va_list -> string.
Variable user_sinks : nat -> log_sink_fn U.

(** [#if TC_EXCEPTIONS_ENABLED], [#if TC_ENABLE_LOGGING] and
    [#if TC_ENABLE_ERROR_LOGGING]. *)
Variable TC_EXCEPTIONS_ENABLED : bool.
Variable TC_ENABLE_LOGGING : bool.
Variable TC_ENABLE_ERROR_LOGGING : bool.

(** [TC_WARN(...)]: [TC_LOG_WARN(...)], or [((void)0)], which does not
    evaluate the arguments either. *)
Definition TC_WARN (loc : source_location) (fmt : string) (args : proc U -> va_list)
  : M U unit :=
  if TC_ENABLE_LOGGING
  then fun p => exec (detail.TC_LOG_WARN vformat user_sinks loc fmt (args p)) p
  else ret tt.

Definition TC_ERROR (loc : source_location) (fmt : string) (args : proc U -> va_list)
  : M U unit :=
  if TC_ENABLE_ERROR_LOGGING
  then fun p => exec (detail.TC_LOG_ERROR vformat user_sinks loc fmt (args p)) p
  else ret tt.

Definition no_args : proc U -> va_list := fun _ => [].

(** The arguments of ["exception: %s", _tc_e.what()]. *)
Definition what_args : proc U -> va_list := fun p => [va_str (current_what p)].

(** The log statement that opens a ready-made [std::exception] handler. *)
Definition std_handler_log (log : source_location -> string -> (proc U -> va_list) -> M U unit)
           (loc : source_location) : M U unit :=
  if TC_EXCEPTIONS_ENABLED
  then log loc "exception: %s" what_args
  else log loc "exception handler (no-exceptions build)" no_args.

Definition TC_CATCH_STD_WARN (loc : source_location) : tc_clause U :=
  TC_CATCH (ty_class std_exception) (std_handler_log TC_WARN loc).

Definition TC_CATCH_STD_ERROR (loc : source_location) : tc_clause U :=
  TC_CATCH (ty_class std_exception) (std_handler_log TC_ERROR loc).

Definition TC_CATCH_ALL_WARN (loc : source_location) : tc_clause U :=
  TC_CATCH_ALL (TC_WARN loc "unknown exception" no_args).

Definition TC_CATCH_ALL_ERROR (loc : source_location) : tc_clause U :=
  TC_CATCH_ALL (TC_ERROR loc "unknown exception" no_args).

(** The variants with a body of the user's: the log statement, then
    [do { BODY; } while (0)]. *)
Definition TC_CATCH_STD_WARN_DO (loc : source_location) (BODY : M U unit) : tc_clause U :=
  TC_CATCH (ty_class std_exception) (std_handler_log TC_WARN loc ;; BODY).

Definition TC_CATCH_STD_ERROR_DO (loc : source_location) (BODY : M U unit) : tc_clause U :=
  TC_CATCH (ty_class std_exception) (std_handler_log TC_ERROR loc ;; BODY).

(** [_AS(NAME, BODY)] names the caught object for [BODY]; the object is
    the one being handled, which [BODY] reads from the process. *)
Definition TC_CATCH_STD_WARN_AS (loc : source_location) (BODY : M U unit) : tc_clause U :=
  TC_CATCH (ty_class std_exception) (std_handler_log TC_WARN loc ;; BODY).

Definition TC_CATCH_STD_ERROR_AS (loc : source_location) (BODY : M U unit) : tc_clause U :=
  TC_CATCH (ty_class std_exception) (std_handler_log TC_ERROR loc ;; BODY).

Definition TC_CATCH_ALL_WARN_DO (loc : source_location) (BODY : M U unit) : tc_clause U :=
  TC_CATCH_ALL (TC_WARN loc "unknown exception" no_args ;; BODY).

Definition TC_CATCH_ALL_ERROR_DO (loc : source_location) (BODY : M U unit) : tc_clause U :=
  TC_CATCH_ALL (TC_ERROR loc "unknown exception" no_args ;; BODY).

End Helpers.

(** ** Runs of log calls *)

(** The arguments of one call of [logf]. *)
Record log_event : Type := LogEvent {
  ev_level : log_level;
  ev_file : cstr;
  ev_line : Z;
  ev_func : cstr;
  ev_fmt : cstr;
  ev_args : va_list
}.

Section LogRuns.
Context {U : Type}.
Variable vformat : string -> va_list -> string.
Variable user_sinks : nat -> log_sink_fn U.

Definition log_one (ev : log_event) (p : proc U) : proc U :=
  detail.logf vformat user_sinks (ev_level ev) (ev_file ev) (ev_line ev) (ev_func ev)
              (ev_fmt ev) (ev_args ev) p.

(** The calls of [logf] for [evs], one after the other. *)
Definition log_all (evs : list log_event) (p : proc U) : proc U :=
  fold_left (fun q ev => log_one ev q) evs p.



(** What the body of sink [s] does for one event. *)
Definition sink_effect (s : sink_ref) (w : world U) (ev : log_event) : world U :=
  detail.sink_body vformat user_sinks s (ev_level ev) (ev_file ev) (ev_line ev)
                   (ev_func ev) (ev_fmt ev) (ev_args ev) w.

End LogRuns.

(** ** The test suite's fixtures *)

Module tests.

(** A rendering of the conversions the tests and the example use: [%d],
    [%s] and [%%]; every other character is copied.  A conversion without a
    matching argument, which C leaves undefined, renders as nothing.  It
    stands for [vfprintf] and [vsnprintf] on formats whose conversions are
    those three, written without flags, width, precision or length
    modifier, and on no other format; it is used to run the tests, whose
    formats are of that kind. *)
Fixpoint vformat (fmt : string) (ap : va_list) : string :=
  match fmt with
  | EmptyString => EmptyString
  | String "%" (String "d" rest) =>
      match ap with
      | va_int n :: ap' => fmt_d n ++ vformat rest ap'
      | _ => vformat rest (tl ap)
      end
  | String "%" (String "s" rest) =>
      match ap with
      | va_str s :: ap' => or_default s "(null)" ++ vformat rest ap'
      | _ => vformat rest (tl ap)
      end
  | String "%" (String "%" rest) => String "%" (vformat rest ap)
  | String ch rest => String ch (vformat rest ap)
  end.

(** [MemSink::sink] of the logging test: [vsnprintf] into a 256-byte
    buffer, then [lines().push_back(level + ":" + buf)]. *)
Definition MemSink_level (lvl : log_level) : string :=
  match level_value lvl with
  | 0 => "TRACE"
  | 1 => "DEBUG"
  | 2 => "INFO"
  | 3 => "WARN"
  | 4 => "ERROR"
  | _ => "?"
  end.

Definition MemSink_sink : log_sink_fn (list string) :=
  fun lvl file line func fmt ap w =>
    let buf := substring 0 255 (vformat (or_default fmt "") ap) in
    World (stderr w) (vars w ++ [(MemSink_level lvl ++ ":" ++ buf)%string])%list.

(** The program's sink functions: [MemSink::sink] is number 0. *)
Definition sinks (id : nat) : log_sink_fn (list string) :=
  match id with
  | O => MemSink_sink
  | S _ => fun _ _ _ _ _ _ w => w
  end.

Definition MemSink_ref : sink_ref := user_sink_ref 0.

Definition here (line : Z) : source_location := SourceLocation "test.cpp" line "TestBody".

(** An assignment to the test's local variables. *)
Definition assign {U} (f : U -> U) : M U unit :=
  exec (fun p => with_vars (f (vars (env p))) p).

(** [Logging.LevelFilterAndSink], up to the assertions. *)
Definition LevelFilterAndSink (p : proc (list string)) : proc (list string) :=
  let p := detail.set_log_sink (Some MemSink_ref) p in
  let p := detail.set_log_level detail.info p in
  let p := with_vars [] p in
  let p := detail.TC_LOG_DEBUG vformat sinks (here 53) "hidden" [] p in
  let p := detail.TC_LOG_INFO vformat sinks (here 54) "show %d" [va_int 1] p in
  let p := detail.TC_LOG_WARN vformat sinks (here 55) "warn %s" [va_str (Some "x")] p in
  detail.TC_LOG_ERROR vformat sinks (here 56) "err" [] p.

(** [TryCatchNoEx.TryRunsCatchSkipped]; the locals are [(try_ran, catch_ran)]. *)
Definition TryRunsCatchSkipped : M (Z * Z) unit :=
  TC_TRY false
    (assign (fun v => (1, snd v)))
    [ TC_CATCH (ty_class std_exception) (assign (fun v => (fst v, 1)));
      TC_CATCH_ALL (assign (fun v => (fst v, 1))) ].

(** [TryCatch.BasicCatchStdException]; the local is [step]. *)
Definition BasicCatchStdException : M Z unit :=
  TC_TRY true
    (assign (fun _ => 1) ;;
     TC_THROW true TC_ABORT_default (here 10) (thrown_obj std_runtime_error "boom") ;;
     assign (fun _ => 2))
    [ TC_CATCH (ty_class std_exception) (assign (fun _ => 3));
      TC_CATCH_ALL (assign (fun _ => 4)) ].

(** [TryCatch.CatchAll]; the local is [caught]. *)
Definition CatchAll : M Z unit :=
  TC_TRY true
    (cpp_throw (thrown_int 42))
    [ TC_CATCH (ty_class std_exception) (ret tt);
      TC_CATCH_ALL (assign (fun _ => 1)) ].

(** [CatchOrder.SpecificBeforeGeneral]; the local is [which]. *)
Definition SpecificBeforeGeneral : M Z unit :=
  TC_TRY true
    (TC_THROW true TC_ABORT_default (here 9) (thrown_obj std_runtime_error "rte"))
    [ TC_CATCH (ty_class std_runtime_error) (assign (fun _ => 1));
      TC_CATCH (ty_class std_exception) (assign (fun _ => 2));
      TC_CATCH_ALL (assign (fun _ => 3)) ].

(** [Rethrow.InnerCatchRethrowOuterHandles]; the locals are [(inner, outer)]. *)
Definition InnerCatchRethrowOuterHandles : M (Z * Z) unit :=
  TC_TRY true
    (TC_TRY true
       (TC_THROW true TC_ABORT_default (here 29) (thrown_obj std_runtime_error "rte"))
       [ TC_CATCH (ty_class std_runtime_error)
           (assign (fun v => (1, snd v)) ;;
            TC_RETHROW true TC_ABORT_default (here 34)) ])
    [ TC_CATCH (ty_class std_exception) (assign (fun v => (fst v, 1))) ].

(** A process at start-up, in a debug build, with the test's locals. *)
Definition start {U} (u : U) : proc U := detail.initial_proc true u.

End tests.

(** ** The fixtures of the helper tests *)

Module helper_tests.

(** [CatchDoAs.StdWarnDoAndAs]; the locals are [(n, m)]. *)
Definition StdWarnDoAndAs (logging error_logging : bool) : M (Z * Z) unit :=
  TC_TRY true
    (cpp_throw (thrown_obj std_runtime_error "boom"))
    [ TC_CATCH_STD_WARN_DO tests.vformat (fun _ _ _ _ _ _ _ w => w) true logging (tests.here 10)
        (tests.assign (fun v => (fst v + 1, snd v))%Z) ].

(** [CatchDoAs.AllErrorDo]; the locals are [(x, unused)]. *)
Definition AllErrorDo (logging error_logging : bool) : M (Z * Z) unit :=
  TC_TRY true
    (cpp_throw (thrown_int 1))
    [ TC_CATCH_ALL_ERROR_DO tests.vformat (fun _ _ _ _ _ _ _ w => w) error_logging
        (tests.here 19) (tests.assign (fun v => (42, snd v))%Z) ].

(** [CatchDoAsNoEx.CompileAwayButBodyPresent]; the locals are [(n, m)]. *)
Definition CompileAwayButBodyPresent (logging error_logging : bool) : M (Z * Z) unit :=
  TC_TRY false
    (tests.assign (fun v => (1, snd v))%Z)
    [ TC_CATCH_STD_WARN_DO tests.vformat (fun _ _ _ _ _ _ _ w => w) false logging
        (tests.here 28) (tests.assign (fun v => (99, snd v))%Z);
      TC_CATCH_STD_WARN_AS tests.vformat (fun _ _ _ _ _ _ _ w => w) false logging
        (tests.here 29) (tests.assign (fun v => (fst v, 2))%Z);
      TC_CATCH_ALL_ERROR_DO tests.vformat (fun _ _ _ _ _ _ _ w => w) error_logging
        (tests.here 30) (tests.assign (fun v => (fst v, 3))%Z) ].

(** [HelpersNoEx.CatchMacrosCompileAway]; the local is [ran]. *)
Definition CatchMacrosCompileAway (logging error_logging : bool) : M Z unit :=
  TC_TRY false
    (tests.assign (fun _ => 1%Z))
    [ TC_CATCH_STD_WARN tests.vformat (fun _ _ _ _ _ _ _ w => w) false logging (tests.here 19);
      TC_CATCH_ALL_ERROR tests.vformat (fun _ _ _ _ _ _ _ w => w) error_logging (tests.here 20) ].

(** [Helpers.StdCatchWarnErrorMacrosCompile] *)
Definition StdCatchWarnErrorMacrosCompile (logging error_logging : bool) : M unit unit :=
  TC_TRY true
    (TC_THROW true TC_ABORT_default (tests.here 8) (thrown_obj std_runtime_error "x"))
    [ TC_CATCH_STD_WARN tests.vformat (fun _ _ _ _ _ _ _ w => w) true logging (tests.here 9);
      TC_CATCH_ALL_ERROR tests.vformat (fun _ _ _ _ _ _ _ w => w) error_logging (tests.here 10) ].

(** A build that defines nothing, with or without [NDEBUG]. *)
Definition plain_build (ndebug : bool) : build_defines :=
  BuildDefines ndebug None None None None None.

End helper_tests.

(** [MemSink::sink] of the logging test, the text that [vsnprintf] renders
    for a format and its arguments being given by [render]. *)
Module logging_test.

Definition MemSink_sink (render : string -> va_list -> string)
  : log_sink_fn (list string) :=
  fun lvl file line func fmt ap w =>
    let buf := substring 0 255 (render (or_default fmt "") ap) in
    World (stderr w) (vars w ++ [(tests.MemSink_level lvl ++ ":" ++ buf)%string])%list.

(** The program's sink functions: [MemSink::sink] is number 0. *)
Definition sinks (render : string -> va_list -> string) (id : nat)
  : log_sink_fn (list string) :=
  match id with
  | O => MemSink_sink render
  | S _ => fun _ _ _ _ _ _ w => w
  end.


End logging_test.

(** Whether the native handler a clause expands to accepts [e]. *)
Definition clause_accepts {U} (c : tc_clause U) (e : exn) : bool :=
  catch_matches (fst (expand_catch c)) e.

(** Whether an object is one a [const std::exception&] handler accepts. *)
Definition is_std_exception (e : exn) : bool :=
  catch_matches (catch_type (ty_class std_exception)) e.

(** ** The dispatcher over sinks that are arbitrary functions *)

(** The body of a sink as any function with the sink's signature: it may
    store to the two atomics through [set_level] and [set_sink], write
    anywhere, raise, or end the process. *)
Definition sink_code (U : Type) : Type :=
  log_level -> cstr -> Z -> cstr -> cstr -> va_list -> M U unit.

(** A sink that only writes, as such a function. *)
Definition writer_code {U} (f : log_sink_fn U) : sink_code U :=
  fun lvl file line func fmt ap p =>
    (Normal tt,
     Proc (runtime_log_level p) (runtime_sink p) (handled p) (sink_calls p)
          (f lvl file line func fmt ap (env p))).

Module any_sink.
Section Dispatch.
Context {U : Type}.

(** The function each sink pointer points to. *)
Variable code : sink_ref -> sink_code U.

(** The indirect call [s(lvl, file, line, func, fmt, ap)]: the level, the
    sink and the rest of the process after the call are the callee's
    doing; the record of calls is the dispatcher's. *)
Definition call_sink (s : sink_ref) (lvl : log_level) (file : cstr) (line : Z)
           (func fmt : cstr) (ap : va_list) : M U unit :=
  fun p =>
    match code s lvl file line func fmt ap p with
    | (r, q) =>
        (r, Proc (runtime_log_level q) (runtime_sink q) (handled p)
                 (sink_calls p ++ [SinkCall s lvl file line func fmt ap])%list (env q))
    end.

Definition vlog_dispatch (lvl : log_level) (file : cstr) (line : Z)
           (func fmt : cstr) (ap : va_list) : M U unit :=
  fun p =>
    if (static_cast_int lvl <? runtime_log_level p)%Z then (Normal tt, p)
    else
      match runtime_sink p with
      | Some s => call_sink s lvl file line func fmt ap p
      | None => (Normal tt, p)
      end.

Definition logf (lvl : log_level) (file : cstr) (line : Z)
           (func fmt : cstr) (args : va_list) : M U unit :=
  vlog_dispatch lvl file line func fmt args.

Definition log_one (ev : log_event) : M U unit :=
  logf (ev_level ev) (ev_file ev) (ev_line ev) (ev_func ev) (ev_fmt ev) (ev_args ev).

(** The calls of [logf] for [evs], one after the other. *)
Fixpoint log_all (evs : list log_event) : M U unit :=
  match evs with
  | [] => ret tt
  | ev :: rest => log_one ev ;; log_all rest
  end.

End Dispatch.

(** A sink that calls [tc::log::set_level(level::off)]. *)
Definition silencing_sink {U} : sink_code U :=
  fun _ _ _ _ _ _ => exec (log.set_level detail.off).

(** A program all of whose sinks are that one, and its process once the
    sink is installed and the minimum level is [info]. *)
Definition silencing_program : sink_ref -> sink_code unit := fun _ => silencing_sink.

Definition silencing_start : proc unit :=
  log.set_sink (Some (user_sink_ref 0)) (log.set_level detail.info (detail.initial_proc true tt)).

End any_sink.

(** * Properties *)

(** ** Helper facts *)

Lemma class_eqb_refl (c : cpp_class) : class_eqb c c = true.
Proof.
  induction c as [ | | n | n b IH]; simpl; auto.
  - apply String.eqb_refl.
  - rewrite String.eqb_refl, IH. reflexivity.
Qed.

Lemma derives_refl (c : cpp_class) : derives c c = true.
Proof. destruct c; simpl; rewrite ?String.eqb_refl, ?class_eqb_refl; reflexivity. Qed.

Lemma catch_own_type (e : exn) : catch_matches (catch_type (dynamic_type e)) e = true.
Proof. destruct e as [v | c w]; simpl; [reflexivity | apply derives_refl]. Qed.

Lemma static_cast_round_trip (lvl : log_level) :
  static_cast_log_level (static_cast_int lvl) = lvl.
Proof. destruct lvl; reflexivity. Qed.

Lemma with_vars_same {U} (p : proc U) : with_vars (vars (env p)) p = p.
Proof. destruct p as [l s h c [e v]]; reflexivity. Qed.

Lemma with_vars_twice {U V W} (v : V) (w : W) (p : proc U) :
  with_vars w (with_vars v p) = with_vars w p.
Proof. reflexivity. Qed.

Section LoggingProperties.
Context {U : Type}.
Variable vformat : string -> va_list -> string.
Variable user_sinks : nat -> log_sink_fn U.

Local Abbreviation logf := (detail.logf vformat user_sinks).
Local Abbreviation sink_body := (detail.sink_body vformat user_sinks).

(** A filtered event leaves the whole process as it was. *)
Lemma logf_filtered (E : log_level) file line func fmt ap (p : proc U) :
  level_value E < runtime_log_level p ->
  logf E file line func fmt ap p = p.
Proof.
  intros Hlt. unfold detail.logf, detail.vlog_dispatch, static_cast_int.
  destruct (Z.ltb_spec (level_value E) (runtime_log_level p)); [reflexivity | lia].
Qed.

(** An event that passes the filter is one call through the sink pointer. *)
Lemma logf_passed (E : log_level) s file line func fmt ap (p : proc U) :
  runtime_log_level p <= level_value E ->
  runtime_sink p = Some s ->
  logf E file line func fmt ap p = detail.call_sink vformat user_sinks s E file line func fmt ap p.
Proof.
  intros Hge Hs. unfold detail.logf, detail.vlog_dispatch, static_cast_int.
  destruct (Z.ltb_spec (level_value E) (runtime_log_level p)); [lia | ].
  rewrite Hs. reflexivity.
Qed.

Lemma app_one_neq {A} (l : list A) (x : A) : (l ++ [x])%list <> l.
Proof.
  intros H. apply (f_equal (@length A)) in H. rewrite length_app in H. simpl in H. lia.
Qed.

(** C1: with minimum level [L] configured and [s] the active sink, a log
    call at level [E] calls the sink if and only if [E >= L].  When
    [E >= L] the one call made is [s(E, file, line, func, fmt, ap)] and the
    rest of the process changes as the body of [s] says; when [E < L] the
    call returns with the process untouched.  [L] and [E] range over every
    value of the enumeration's type, the five named event levels among
    them. *)
Theorem log_delivered_iff_level_ge
    (L E : log_level) (s : sink_ref) (file : cstr) (line : Z) (func fmt : cstr)
    (ap : va_list) (p : proc U) :
  log.get_level p = L ->
  log.get_sink p = Some s ->
  let p' := logf E file line func fmt ap p in
  (sink_calls p' <> sink_calls p <-> level_value L <= level_value E)
  /\ (level_value L <= level_value E ->
        sink_calls p' = (sink_calls p ++ [SinkCall s E file line func fmt ap])%list
        /\ env p' = sink_body s E file line func fmt ap (env p))
  /\ (level_value E < level_value L -> p' = p).
Proof.
  intros HL Hs p'. subst L p'. unfold log.get_sink, detail.get_log_sink in Hs.
  unfold log.get_level, detail.get_log_level, static_cast_log_level. simpl.
  destruct (Z.lt_ge_cases (level_value E) (runtime_log_level p)) as [Hlt | Hge].
  - rewrite (logf_filtered E file line func fmt ap p Hlt).
    split; [ | split].
    + split; [congruence | lia].
    + lia.
    + reflexivity.
  - rewrite (logf_passed E s file line func fmt ap p Hge Hs). simpl.
    split; [ | split].
    + split; [intros _; exact Hge | intros _; apply app_one_neq].
    + split; reflexivity.
    + lia.
Qed.

(** C6: with a null sink pointer a log call at any level, with any
    arguments, returns the process unchanged: no call is made and nothing
    is written. *)
Theorem log_null_sink_noop
    (E : log_level) (file : cstr) (line : Z) (func fmt : cstr) (ap : va_list)
    (p : proc U) :
  log.get_sink p = None ->
  logf E file line func fmt ap p = p
  /\ detail.vlog_dispatch vformat user_sinks E file line func fmt ap p = p.
Proof.
  unfold log.get_sink, detail.get_log_sink, detail.logf, detail.vlog_dispatch.
  intros ->. destruct (static_cast_int E <? runtime_log_level p)%Z; auto.
Qed.

(** C7: [get_level] returns the level last stored by [set_level] and
    [get_sink] the sink last stored by [set_sink], also when a store to
    the other component or a log call comes in between. *)
Theorem get_after_set (L L0 E : log_level) (s s0 : log_sink_t) file line func fmt ap
    (p : proc U) :
  log.get_level (log.set_level L p) = L
  /\ log.get_sink (log.set_sink s p) = s
  /\ log.get_level (log.set_level L (log.set_level L0 p)) = L
  /\ log.get_sink (log.set_sink s (log.set_sink s0 p)) = s
  /\ log.get_level (log.set_sink s (log.set_level L p)) = L
  /\ log.get_sink (log.set_level L (log.set_sink s p)) = s
  /\ log.get_level (logf E file line func fmt ap (log.set_level L p)) = L
  /\ log.get_sink (logf E file line func fmt ap (log.set_sink s p)) = s.
Proof.
  unfold log.get_level, log.set_level, log.get_sink, log.set_sink,
    detail.get_log_level, detail.set_log_level, detail.get_log_sink, detail.set_log_sink,
    detail.logf, detail.vlog_dispatch.
  simpl. rewrite !static_cast_round_trip.
  repeat split.
  - destruct (static_cast_int E <? static_cast_int L)%Z; simpl.
    + apply static_cast_round_trip.
    + destruct (runtime_sink p); simpl; apply static_cast_round_trip.
  - destruct (static_cast_int E <? runtime_log_level p)%Z; simpl; [reflexivity | ].
    destruct s; reflexivity.
Qed.

(** The dispatcher over sinks that only write is the dispatcher over any
    sinks, at those sinks. *)
Lemma writer_dispatch (E : log_level) file line func fmt ap (p : proc U) :
  any_sink.logf (fun s => writer_code (sink_body s)) E file line func fmt ap p
  = (Normal tt, logf E file line func fmt ap p).
Proof.
  unfold any_sink.logf, any_sink.vlog_dispatch, any_sink.call_sink, writer_code,
    detail.logf, detail.vlog_dispatch, detail.call_sink.
  destruct (static_cast_int E <? runtime_log_level p)%Z; [reflexivity | ].
  destruct (runtime_sink p); reflexivity.
Qed.

(** C9: [set_level] changes the level and nothing else, and [set_sink] the
    sink and nothing else.  A log call that is filtered, or that finds a
    null sink, changes nothing.  A delivered log call stores to neither
    the level nor the sink: after it both are as the body of the sink that
    was called left them, so both are as before the call whenever that
    body leaves them alone, as the bodies of the header's own sink and of
    every sink that only writes do. *)
Theorem logging_frame (code : sink_ref -> sink_code U) (L E : log_level) (s0 : log_sink_t)
    file line func fmt ap (p : proc U) :
  (log.get_sink (log.set_level L p) = log.get_sink p
     /\ env (log.set_level L p) = env p
     /\ sink_calls (log.set_level L p) = sink_calls p
     /\ handled (log.set_level L p) = handled p)
  /\ (log.get_level (log.set_sink s0 p) = log.get_level p
     /\ env (log.set_sink s0 p) = env p
     /\ sink_calls (log.set_sink s0 p) = sink_calls p
     /\ handled (log.set_sink s0 p) = handled p)
  /\ (level_value E < runtime_log_level p \/ runtime_sink p = None ->
        any_sink.logf code E file line func fmt ap p = (Normal tt, p))
  /\ (forall s : sink_ref,
        runtime_log_level p <= level_value E ->
        runtime_sink p = Some s ->
        log.get_level (snd (any_sink.logf code E file line func fmt ap p))
        = log.get_level (snd (code s E file line func fmt ap p))
        /\ log.get_sink (snd (any_sink.logf code E file line func fmt ap p))
           = log.get_sink (snd (code s E file line func fmt ap p)))
  /\ ((forall s : sink_ref,
          runtime_sink p = Some s ->
          log.get_level (snd (code s E file line func fmt ap p)) = log.get_level p
          /\ log.get_sink (snd (code s E file line func fmt ap p)) = log.get_sink p) ->
        log.get_level (snd (any_sink.logf code E file line func fmt ap p)) = log.get_level p
        /\ log.get_sink (snd (any_sink.logf code E file line func fmt ap p)) = log.get_sink p)
  /\ (log.get_level (logf E file line func fmt ap p) = log.get_level p
     /\ log.get_sink (logf E file line func fmt ap p) = log.get_sink p).
Proof.
  assert (Hcall : forall s : sink_ref,
             runtime_log_level p <= level_value E ->
             runtime_sink p = Some s ->
             log.get_level (snd (any_sink.logf code E file line func fmt ap p))
             = log.get_level (snd (code s E file line func fmt ap p))
             /\ log.get_sink (snd (any_sink.logf code E file line func fmt ap p))
                = log.get_sink (snd (code s E file line func fmt ap p))).
  { intros s HE Hs. unfold any_sink.logf, any_sink.vlog_dispatch, static_cast_int.
    destruct (Z.ltb_spec (level_value E) (runtime_log_level p)); [lia | ].
    rewrite Hs. unfold any_sink.call_sink.
    destruct (code s E file line func fmt ap p) as [r q]. split; reflexivity. }
  split; [repeat split | ]. split; [repeat split | ].
  split; [ | split; [exact Hcall | split]].
  - intros [Hlt | Hnull]; unfold any_sink.logf, any_sink.vlog_dispatch, static_cast_int.
    + destruct (Z.ltb_spec (level_value E) (runtime_log_level p)); [reflexivity | lia].
    + rewrite Hnull. destruct (level_value E <? runtime_log_level p)%Z; reflexivity.
  - intros Hkeeps.
    destruct (Z.lt_ge_cases (level_value E) (runtime_log_level p)) as [Hlt | Hge].
    + unfold any_sink.logf, any_sink.vlog_dispatch, static_cast_int.
      destruct (Z.ltb_spec (level_value E) (runtime_log_level p)); [ | lia].
      split; reflexivity.
    + destruct (runtime_sink p) as [s | ] eqn:Hs.
      * destruct (Hcall s Hge eq_refl) as [H1 H2]. destruct (Hkeeps s eq_refl) as [H3 H4].
        rewrite H1, H2, H3, H4. split; reflexivity.
      * unfold any_sink.logf, any_sink.vlog_dispatch. rewrite Hs.
        destruct (static_cast_int E <? runtime_log_level p)%Z; split;
          try reflexivity; unfold log.get_sink, detail.get_log_sink; simpl; auto.
  - split.
    + unfold detail.logf, detail.vlog_dispatch.
      destruct (static_cast_int E <? runtime_log_level p)%Z; [reflexivity | ].
      destruct (runtime_sink p); reflexivity.
    + unfold detail.logf, detail.vlog_dispatch.
      destruct (static_cast_int E <? runtime_log_level p)%Z; [reflexivity | ].
      destruct (runtime_sink p); reflexivity.
Qed.

(** C10: with the minimum level at [off], a log call at any of [trace],
    [debug], [info], [warn], [error] makes no call to the sink and leaves
    the process unchanged, whatever the sink is. *)
Theorem log_off_drops_event_levels
    (E : log_level) (file : cstr) (line : Z) (func fmt : cstr) (ap : va_list)
    (p : proc U) :
  log.get_level p = detail.off ->
  In E detail.event_levels ->
  level_value E < level_value detail.off
  /\ logf E file line func fmt ap p = p
  /\ sink_calls (logf E file line func fmt ap p) = sink_calls p.
Proof.
  intros Hoff HE.
  assert (Hlt : level_value E < runtime_log_level p).
  { unfold log.get_level, detail.get_log_level, static_cast_log_level in Hoff.
    injection Hoff as Hoff. rewrite Hoff.
    simpl in HE. repeat (destruct HE as [<- | HE]; [simpl; lia | ]). contradiction. }
  assert (Hv : level_value E < level_value detail.off).
  { simpl in HE. repeat (destruct HE as [<- | HE]; [simpl; lia | ]). contradiction. }
  rewrite (logf_filtered E file line func fmt ap p Hlt). auto.
Qed.

End LoggingProperties.

(** ** The macro layer *)

Lemma append_assoc (a b c : string) : (a ++ b) ++ c = a ++ (b ++ c).
Proof. induction a as [ | ch a IH]; simpl; [reflexivity | rewrite IH; reflexivity]. Qed.

(** The monad laws, at every state. *)
Lemma bind_ret_l {U A B} (a : A) (k : A -> M U B) (p : proc U) :
  bind (ret a) k p = k a p.
Proof. reflexivity. Qed.

Lemma bind_ret_r {U A} (c : M U A) (p : proc U) : bind c ret p = c p.
Proof. unfold bind, ret. destruct (c p) as [[a | e | ] p1]; reflexivity. Qed.

Lemma bind_assoc {U A B C} (c : M U A) (k : A -> M U B) (h : B -> M U C) (p : proc U) :
  bind (bind c k) h p = bind c (fun a => bind (k a) h) p.
Proof. unfold bind. destruct (c p) as [[a | e | ] p1]; reflexivity. Qed.

Lemma bind_terminated {U A B} (c : M U A) (k : A -> M U B) (p p1 : proc U) :
  c p = (Terminated, p1) -> bind c k p = (Terminated, p1).
Proof. unfold bind. intros ->. reflexivity. Qed.

(** The expansion of [TC_TRY] for disabled exceptions runs the body and
    nothing else, whatever the clauses are. *)
Lemma TC_TRY_disabled {U} (body : M U unit) (clauses : list (tc_clause U)) :
  TC_TRY false body clauses = body.
Proof. reflexivity. Qed.

(** The local of [TC_GUARD] around code of the enclosing scope. *)
Lemma outer_run {L U A} (c : M U A) (l : L) (p : proc U) :
  outer c (with_vars (l, vars (env p)) p)
  = (fst (c p), with_vars (l, vars (env (snd (c p)))) (snd (c p))).
Proof.
  unfold outer. simpl. rewrite with_vars_twice, with_vars_same.
  destruct (c p) as [r p1]. reflexivity.
Qed.

(** A chain made of [else if (false)] branches alone runs none of them. *)
Lemma else_if_false_chain_skips {U} (clauses : list (tc_clause U)) (p : proc U) :
  cpp_if_chain (map expand_else_if clauses) p = (Normal tt, p).
Proof.
  induction clauses as [ | c rest IH]; simpl; [reflexivity | exact IH].
Qed.

(** C4: with exceptions disabled, [TC_TRY { body }] followed by any
    [TC_CATCH] / [TC_CATCH_ALL] clauses runs [body] and none of the clause
    bodies: the statement behaves as [body] alone, from every state and for
    every choice of clause bodies, and the chain of clauses taken by itself
    does nothing.  The clause bodies are still part of the expansion, each
    as the branch of an [else if (false)]. *)
Theorem noexc_try_runs_body_only {U} (body : M U unit) (clauses : list (tc_clause U)) :
  (forall p : proc U, TC_TRY false body clauses p = body p)
  /\ (forall (clauses' : list (tc_clause U)) (p : proc U),
        TC_TRY false body clauses p = TC_TRY false body clauses' p)
  /\ (forall p : proc U,
        cpp_if_chain (tl (disabled_branches body clauses)) p = (Normal tt, p))
  /\ TC_TRY false body clauses = cpp_if_chain (disabled_branches body clauses)
  /\ disabled_branches body clauses
     = (true, body) :: map (fun c => (false, clause_body c)) clauses.
Proof.
  split; [reflexivity | ]. split; [reflexivity | ].
  split; [ | split; reflexivity].
  intros p. apply else_if_false_chain_skips.
Qed.

(** C8: with exceptions enabled, when the body of a [TC_TRY] raises an
    object of type [S] and the clauses are, in order, a handler for [S], a
    handler for another type [G] and a catch-all, the body of the handler
    for [S] is run once, from the state the body of the [TC_TRY] left and
    with the object being handled, and what it returns is what the
    statement returns; the other two bodies have no part in the result.
    With three handlers that each apply a function to the variables, the
    variables end as the first function makes them, applied once. *)
Theorem specific_handler_runs_first {U} (S G : cpp_type) (body h1 h2 h3 : M U unit)
    (e : exn) (p p1 : proc U) :
  body p = (Raised e, p1) ->
  dynamic_type e = S ->
  TC_TRY true body [TC_CATCH S h1; TC_CATCH G h2; TC_CATCH_ALL h3] p = run_handler e h1 p1
  /\ (forall h2' h3' : M U unit,
        TC_TRY true body [TC_CATCH S h1; TC_CATCH G h2'; TC_CATCH_ALL h3'] p
        = TC_TRY true body [TC_CATCH S h1; TC_CATCH G h2; TC_CATCH_ALL h3] p)
  /\ TC_TRY true body [TC_CATCH S h1; TC_CATCH G h2; TC_CATCH_ALL h3] p
     = (fst (h1 (push_handled e p1)), pop_handled (snd (h1 (push_handled e p1))))
  /\ (forall f1 f2 f3 : U -> U,
        TC_TRY true body [TC_CATCH S (tests.assign f1); TC_CATCH G (tests.assign f2);
                          TC_CATCH_ALL (tests.assign f3)] p
        = (Normal tt, with_vars (f1 (vars (env p1))) p1)).
Proof.
  intros Hbody HS. subst S.
  assert (Hsel : forall a b c : M U unit,
             TC_TRY true body [TC_CATCH (dynamic_type e) a; TC_CATCH G b; TC_CATCH_ALL c] p
             = (fst (a (push_handled e p1)), pop_handled (snd (a (push_handled e p1))))).
  { intros a b c. unfold TC_TRY, cpp_try. rewrite Hbody.
    cbn [map expand_catch find_handler]. rewrite catch_own_type.
    unfold run_handler. destruct (a (push_handled e p1)) as [r q]. reflexivity. }
  split; [ | split; [ | split]].
  - rewrite Hsel. unfold run_handler.
    destruct (h1 (push_handled e p1)) as [r q]. reflexivity.
  - intros h2' h3'. rewrite !Hsel. reflexivity.
  - apply Hsel.
  - intros f1 f2 f3. rewrite Hsel. destruct p1 as [l s h c [err v]]. reflexivity.
Qed.

(** [TC_GUARD], by the way [expr] ends when run with [ok] at [true]:
    the result is the last value of [ok], which the handlers set to
    [false], and the local is gone from the state. *)
Lemma guard_run {U A} (enabled : bool) (expr : M (bool * U) A) (p : proc U) :
  TC_GUARD enabled expr p =
  match expr (with_vars (true, vars (env p)) p) with
  | (Normal _, q) => (Normal (fst (vars (env q))), with_vars (snd (vars (env q))) q)
  | (Raised _, q) =>
      (if enabled then Normal false else Terminated, with_vars (snd (vars (env q))) q)
  | (Terminated, q) => (Terminated, with_vars (snd (vars (env q))) q)
  end.
Proof.
  destruct enabled.
  - unfold TC_GUARD, TC_NOEXCEPT_IF_NOEXCEPTIONS, with_local, TC_TRY, bind at 1.
    unfold cpp_try, discard, bind at 1.
    destruct (expr (with_vars (true, vars (env p)) p)) as [[v | e | ] q];
      [reflexivity | | reflexivity].
    destruct q as [l s h c [err v]].
    destruct e as [n | c0 w]; [reflexivity | ].
    simpl. destruct (derives c0 std_exception); reflexivity.
  - unfold TC_GUARD, TC_NOEXCEPT_IF_NOEXCEPTIONS, cpp_noexcept, with_local.
    rewrite TC_TRY_disabled. unfold discard, bind.
    destruct (expr (with_vars (true, vars (env p)) p)) as [[v | e | ] q]; reflexivity.
Qed.

(** [TC_GUARD] with exceptions enabled around an expression that does not
    name [ok], by the way the expression ends. *)
Lemma guard_enabled_run {U A} (expr : M U A) (p : proc U) :
  TC_GUARD true (outer expr) p =
  match expr p with
  | (Normal _, p1) => (Normal true, p1)
  | (Raised _, p1) => (Normal false, p1)
  | (Terminated, p1) => (Terminated, p1)
  end.
Proof.
  rewrite guard_run, outer_run.
  destruct (expr p) as [[v | e | ] p1]; simpl;
    rewrite with_vars_twice, with_vars_same; reflexivity.
Qed.

(** [TC_GUARD] with exceptions disabled around an expression that does not
    name [ok], by the way the expression ends. *)
Lemma guard_disabled_run {U A} (expr : M U A) (p : proc U) :
  TC_GUARD false (outer expr) p =
  match expr p with
  | (Normal _, p1) => (Normal true, p1)
  | (Raised _, p1) => (Terminated, p1)
  | (Terminated, p1) => (Terminated, p1)
  end.
Proof.
  rewrite guard_run, outer_run.
  destruct (expr p) as [[v | e | ] p1]; simpl;
    rewrite with_vars_twice, with_vars_same; reflexivity.
Qed.

(** C5: the header says of [TC_GUARD] "Returns true if ran without
    exception; false if caught", and the code does not keep the first half:
    the expression [ok = false] names the local of the lambda it is pasted
    into, so with exceptions enabled it completes, raising nothing, and the
    guard returns [false], the variables of the caller untouched.  The
    second half holds of every expression, one that names [ok] or not. *)
Theorem guard_enabled_captures_ok {U A} (expr : M (bool * U) A) (p : proc U) :
  set_local false (with_vars (true, vars (env p)) p)
  = (Normal tt, with_vars (false, vars (env p)) p)
  /\ TC_GUARD true (set_local false) p = (Normal false, p)
  /\ (forall (e : exn) (q : proc (bool * U)),
        expr (with_vars (true, vars (env p)) p) = (Raised e, q) ->
        TC_GUARD true expr p = (Normal false, with_vars (snd (vars (env q))) q)).
Proof.
  split; [reflexivity | split].
  - rewrite guard_run. destruct p as [l s h c [err v]]. reflexivity.
  - intros e q H. rewrite guard_run, H. reflexivity.
Qed.

(** C2: the header says of [TC_GUARD] "In no-exception builds it's always
    true", and the code does not keep it: the expression [ok = false] names
    the local of the lambda it is pasted into, so with exceptions disabled
    it returns, raising nothing and ending nothing, and the guard returns
    [false], the variables of the caller untouched. *)
Theorem guard_disabled_captures_ok {U} (p : proc U) :
  set_local false (with_vars (true, vars (env p)) p)
  = (Normal tt, with_vars (false, vars (env p)) p)
  /\ TC_GUARD false (set_local false) p = (Normal false, p).
Proof.
  split; [reflexivity | ].
  rewrite guard_run. destruct p as [l s h c [err v]]. reflexivity.
Qed.

(** Code after a statement that terminated the process does not run, and
    neither the clauses of an enclosing [TC_TRY] nor an enclosing
    [TC_GUARD] bring the process back. *)
Lemma terminated_is_final {U} (c next : M U unit) (clauses : list (tc_clause U))
    (p p1 : proc U) :
  c p = (Terminated, p1) ->
  (c ;; next) p = (Terminated, p1)
  /\ TC_TRY false (c ;; next) clauses p = (Terminated, p1)
  /\ TC_GUARD false (outer (c ;; next)) p = (Terminated, p1).
Proof.
  intros H. rewrite guard_disabled_run, TC_TRY_disabled.
  rewrite (bind_terminated c (fun _ => next) p p1 H). auto.
Qed.

Lemma abort_diagnostic_contains (file : string) (line : Z) (func msg : string) :
  let d := detail.abort_diagnostic (Some file) line (Some func) (Some msg) in
  contains d file /\ contains d (fmt_d line) /\ contains d func /\ contains d msg.
Proof.
  unfold detail.abort_diagnostic, or_default. cbv zeta.
  set (head := "[tc] fatal: exception thrown but exceptions are disabled").
  repeat split.
  - exists (head ++ LF ++ "  at "),
           (":" ++ fmt_d line ++ " in " ++ func ++ LF ++ "  msg: " ++ msg ++ LF).
    rewrite !append_assoc. reflexivity.
  - exists (head ++ LF ++ "  at " ++ file ++ ":"),
           (" in " ++ func ++ LF ++ "  msg: " ++ msg ++ LF).
    rewrite !append_assoc. reflexivity.
  - exists (head ++ LF ++ "  at " ++ file ++ ":" ++ fmt_d line ++ " in "),
           (LF ++ "  msg: " ++ msg ++ LF).
    rewrite !append_assoc. reflexivity.
  - exists (head ++ LF ++ "  at " ++ file ++ ":" ++ fmt_d line ++ " in " ++ func ++ LF
            ++ "  msg: "), LF.
    rewrite !append_assoc. reflexivity.
Qed.

(** C3: with exceptions disabled, [TC_THROW] and [TC_RETHROW] are calls of
    the abort hook and raise nothing.  With the header's own hook the call
    appends to the standard error stream a diagnostic in which the file,
    the line, the function and the message all occur, and the process is
    terminated: the statements after it do not run, and neither the clauses
    of an enclosing [TC_TRY] nor an enclosing [TC_GUARD] recover. *)
Theorem noexc_throw_is_fatal {U} (TC_ABORT : abort_hook U) (loc : source_location)
    (ex : exn) (p : proc U) (next : M U unit) (clauses : list (tc_clause U)) :
  let throw_msg := "TC_THROW called with exceptions disabled" in
  let rethrow_msg := "TC_RETHROW called with exceptions disabled" in
  let diag := fun msg =>
    detail.abort_diagnostic (Some (loc_file loc)) (loc_line loc) (Some (loc_func loc))
                            (Some msg) in
  (TC_THROW false TC_ABORT loc ex = TC_ABORT loc throw_msg
   /\ TC_RETHROW false TC_ABORT loc = TC_ABORT loc rethrow_msg)
  /\ (TC_THROW false TC_ABORT_default loc ex p = (Terminated, write_stderr (diag throw_msg) p)
      /\ TC_RETHROW false TC_ABORT_default loc p
         = (Terminated, write_stderr (diag rethrow_msg) p))
  /\ (forall msg : string,
        stderr (env (write_stderr (diag msg) p)) = stderr (env p) ++ diag msg
        /\ contains (diag msg) (loc_file loc)
        /\ contains (diag msg) (fmt_d (loc_line loc))
        /\ contains (diag msg) (loc_func loc)
        /\ contains (diag msg) msg)
  /\ (let c := TC_THROW false TC_ABORT_default loc ex in
      let p1 := write_stderr (diag throw_msg) p in
      (c ;; next) p = (Terminated, p1)
      /\ TC_TRY false (c ;; next) clauses p = (Terminated, p1)
      /\ TC_GUARD false (outer (c ;; next)) p = (Terminated, p1))
  /\ (let c := TC_RETHROW false TC_ABORT_default loc in
      let p1 := write_stderr (diag rethrow_msg) p in
      (c ;; next) p = (Terminated, p1)
      /\ TC_TRY false (c ;; next) clauses p = (Terminated, p1)
      /\ TC_GUARD false (outer (c ;; next)) p = (Terminated, p1)).
Proof.
  intros throw_msg rethrow_msg diag.
  split; [split; reflexivity | ].
  split; [split; reflexivity | ].
  split; [ | split].
  - intros msg. split; [reflexivity | ].
    apply (abort_diagnostic_contains (loc_file loc) (loc_line loc) (loc_func loc) msg).
  - cbv zeta. apply terminated_is_final. reflexivity.
  - cbv zeta. apply terminated_is_final. reflexivity.
Qed.

(** ** The test suite, run on the model *)

Example abort_diagnostic_sample :
  detail.abort_diagnostic (Some "main.cpp") 12 (Some "main") (Some "boom")
  = "[tc] fatal: exception thrown but exceptions are disabled" ++ LF
    ++ "  at main.cpp:12 in main" ++ LF ++ "  msg: boom" ++ LF.
Proof. reflexivity. Qed.

Example abort_diagnostic_null :
  detail.abort_diagnostic None (-3) None None
  = "[tc] fatal: exception thrown but exceptions are disabled" ++ LF
    ++ "  at (unknown):-3 in (unknown)" ++ LF ++ "  msg: (none)" ++ LF.
Proof. reflexivity. Qed.

Example run_default_stderr_sink :
  stderr (env (detail.TC_LOG_INFO tests.vformat tests.sinks (tests.here 26) "n=%d" [va_int 5]
                 (tests.start [])))
  = "[INFO] test.cpp:26 TestBody: n=5" ++ LF.
Proof. reflexivity. Qed.

Example run_LevelFilterAndSink :
  vars (env (tests.LevelFilterAndSink (tests.start [])))
  = ["INFO:show 1"; "WARN:warn x"; "ERROR:err"].
Proof. reflexivity. Qed.

Example run_TryRunsCatchSkipped :
  tests.TryRunsCatchSkipped (tests.start (0, 0)) = (Normal tt, tests.start (1, 0)).
Proof. reflexivity. Qed.

Example run_BasicCatchStdException :
  tests.BasicCatchStdException (tests.start 0) = (Normal tt, tests.start 3).
Proof. reflexivity. Qed.

Example run_CatchAll : tests.CatchAll (tests.start 0) = (Normal tt, tests.start 1).
Proof. reflexivity. Qed.

Example run_SpecificBeforeGeneral :
  tests.SpecificBeforeGeneral (tests.start 0) = (Normal tt, tests.start 1).
Proof. reflexivity. Qed.

Example run_InnerCatchRethrowOuterHandles :
  tests.InnerCatchRethrowOuterHandles (tests.start (0, 0)) = (Normal tt, tests.start (1, 1)).
Proof. reflexivity. Qed.

Example run_Guard_enabled :
  TC_GUARD true (outer (may_throw_test true TC_ABORT_default (tests.here 30) 1))
           (tests.start tt)
  = (Normal true, tests.start tt)
  /\ TC_GUARD true (outer (may_throw_test true TC_ABORT_default (tests.here 30) (-1)))
              (tests.start tt)
     = (Normal false, tests.start tt).
Proof. split; reflexivity. Qed.

Example run_Guard_disabled :
  TC_GUARD false (outer (may_throw_test false TC_ABORT_default (tests.here 30) 1))
           (tests.start tt)
  = (Normal true, tests.start tt)
  /\ TC_GUARD false (outer (may_throw_test false TC_ABORT_default (tests.here 30) (-1)))
              (tests.start tt)
     = (Normal true, tests.start tt).
Proof. split; reflexivity. Qed.

(** The delivery table of the five event levels against the six
    configurable minimum levels: a row per minimum level, [true] where the
    sink is called. *)
Example delivery_table :
  map (fun L =>
         map (fun E =>
                negb (length (sink_calls
                                (detail.logf tests.vformat tests.sinks E None 0 None None []
                                   (log.set_level L (tests.start []))))
                      =? 0)%nat)
             detail.event_levels)
      (detail.event_levels ++ [detail.off])%list
  = [ [true; true; true; true; true];
      [false; true; true; true; true];
      [false; false; true; true; true];
      [false; false; false; true; true];
      [false; false; false; false; true];
      [false; false; false; false; false] ].
Proof. reflexivity. Qed.

(** ** Instances on concrete processes *)

(** The logging test's sink at minimum level [info], a [warn] event. *)
Lemma log_delivered_iff_level_ge_witness :
  let p := log.set_sink (Some tests.MemSink_ref)
             (log.set_level detail.info (tests.start [])) in
  let p' := detail.logf tests.vformat tests.sinks detail.warn
              (Some "a.cpp") 7 (Some "f") (Some "warn %s") [va_str (Some "x")] p in
  log.get_level p = detail.info
  /\ log.get_sink p = Some tests.MemSink_ref
  /\ ((sink_calls p' <> sink_calls p <-> level_value detail.info <= level_value detail.warn)
      /\ (level_value detail.info <= level_value detail.warn ->
            sink_calls p'
            = (sink_calls p ++ [SinkCall tests.MemSink_ref detail.warn (Some "a.cpp") 7
                                         (Some "f") (Some "warn %s") [va_str (Some "x")]])%list
            /\ env p' = detail.sink_body tests.vformat tests.sinks tests.MemSink_ref detail.warn
                          (Some "a.cpp") 7 (Some "f") (Some "warn %s") [va_str (Some "x")]
                          (env p))
      /\ (level_value detail.warn < level_value detail.info -> p' = p)).
Proof.
  intros p p'.
  split; [reflexivity | split; [reflexivity | ]].
  apply (log_delivered_iff_level_ge tests.vformat tests.sinks detail.info detail.warn
           tests.MemSink_ref (Some "a.cpp") 7 (Some "f") (Some "warn %s")
           [va_str (Some "x")] p); reflexivity.
Defined.

(** An [error] event after [set_sink(nullptr)]. *)
Lemma log_null_sink_noop_witness :
  let p := log.set_sink None (tests.start []) in
  log.get_sink p = None
  /\ (detail.logf tests.vformat tests.sinks detail.error None 0 None (Some "err") [] p = p
      /\ detail.vlog_dispatch tests.vformat tests.sinks detail.error None 0 None (Some "err") [] p
         = p).
Proof.
  intros p. split; [reflexivity | ].
  apply (log_null_sink_noop tests.vformat tests.sinks detail.error None 0 None (Some "err")
           [] p); reflexivity.
Defined.

(** An [error] event after [set_level(off)]. *)
Lemma log_off_drops_event_levels_witness :
  let p := log.set_level detail.off (tests.start []) in
  log.get_level p = detail.off
  /\ In detail.error detail.event_levels
  /\ (level_value detail.error < level_value detail.off
      /\ detail.logf tests.vformat tests.sinks detail.error None 0 None (Some "err") [] p = p
      /\ sink_calls (detail.logf tests.vformat tests.sinks detail.error None 0 None
                       (Some "err") [] p)
         = sink_calls p).
Proof.
  intros p. split; [reflexivity | ].
  split; [simpl; tauto | ].
  apply (log_off_drops_event_levels tests.vformat tests.sinks detail.error None 0 None
           (Some "err") [] p); [reflexivity | simpl; tauto].
Defined.

(** The statement of [CatchOrder.SpecificBeforeGeneral], each handler
    counting its runs in a variable of its own. *)
Lemma specific_handler_runs_first_witness :
  let e := thrown_obj std_runtime_error "rte" in
  let body : M (Z * Z * Z) unit := TC_THROW true TC_ABORT_default (tests.here 9) e in
  let f1 := fun v : Z * Z * Z => (fst (fst v) + 1, snd (fst v), snd v) in
  let f2 := fun v : Z * Z * Z => (fst (fst v), snd (fst v) + 1, snd v) in
  let f3 := fun v : Z * Z * Z => (fst (fst v), snd (fst v), snd v + 1) in
  let p := tests.start (0, 0, 0) in
  body p = (Raised e, p)
  /\ dynamic_type e = ty_class std_runtime_error
  /\ TC_TRY true body [TC_CATCH (ty_class std_runtime_error) (tests.assign f1);
                       TC_CATCH (ty_class std_exception) (tests.assign f2);
                       TC_CATCH_ALL (tests.assign f3)] p
     = (Normal tt, with_vars (f1 (vars (env p))) p)
  /\ f1 (vars (env p)) = (1, 0, 0).
Proof.
  intros e body f1 f2 f3 p.
  split; [reflexivity | split; [reflexivity | split; [ | reflexivity]]].
  refine (proj2 (proj2 (proj2 (specific_handler_runs_first (ty_class std_runtime_error)
                   (ty_class std_exception) body (ret tt) (ret tt) (ret tt) e p p _ _)))
            f1 f2 f3); reflexivity.
Defined.

(** [throw 42] where the local of the guard is in scope. *)
Lemma guard_enabled_captures_ok_witness :
  let p := tests.start tt in
  let bad : M (bool * unit) Z := cpp_throw (thrown_int 42) in
  let q := with_vars (true, vars (env p)) p in
  bad (with_vars (true, vars (env p)) p) = (Raised (thrown_int 42), q)
  /\ TC_GUARD true bad p = (Normal false, with_vars (snd (vars (env q))) q).
Proof.
  intros p bad q. split; [reflexivity | ].
  apply (proj2 (proj2 (guard_enabled_captures_ok bad p))) with (e := thrown_int 42).
  reflexivity.
Defined.

(** A sink that calls [set_level(off)], installed under minimum level
    [info], and one [error] event: the call is delivered, and the level
    after it is [off]. *)
Lemma logging_frame_counterexample :
  ~ (log.get_level
       (snd (any_sink.logf any_sink.silencing_program detail.error None 0 None (Some "x") []
               any_sink.silencing_start))
     = log.get_level any_sink.silencing_start
     /\ log.get_sink
          (snd (any_sink.logf any_sink.silencing_program detail.error None 0 None (Some "x") []
                  any_sink.silencing_start))
        = log.get_sink any_sink.silencing_start).
Proof. intros [H _]. discriminate H. Qed.

(** The sink of the logging test, which only writes, and one [warn] event. *)
Lemma logging_frame_witness :
  let code : sink_ref -> sink_code (list string) :=
    fun s => writer_code (detail.sink_body tests.vformat tests.sinks s) in
  let p := log.set_sink (Some tests.MemSink_ref)
             (log.set_level detail.info (tests.start [])) in
  (forall s : sink_ref,
      runtime_sink p = Some s ->
      log.get_level (snd (code s detail.warn None 0 None (Some "w") [] p)) = log.get_level p
      /\ log.get_sink (snd (code s detail.warn None 0 None (Some "w") [] p)) = log.get_sink p)
  /\ (log.get_level (snd (any_sink.logf code detail.warn None 0 None (Some "w") [] p))
      = log.get_level p
      /\ log.get_sink (snd (any_sink.logf code detail.warn None 0 None (Some "w") [] p))
         = log.get_sink p).
Proof.
  intros code p.
  assert (Hkeeps : forall s : sink_ref,
             runtime_sink p = Some s ->
             log.get_level (snd (code s detail.warn None 0 None (Some "w") [] p))
             = log.get_level p
             /\ log.get_sink (snd (code s detail.warn None 0 None (Some "w") [] p))
                = log.get_sink p)
    by (intros s _; split; reflexivity).
  split; [exact Hkeeps | ].
  apply (proj1 (proj2 (proj2 (proj2 (proj2
           (logging_frame tests.vformat tests.sinks code detail.off detail.warn None
              None 0 None (Some "w") [] p)))))).
  exact Hkeeps.
Defined.

(** * Further properties of the header *)

(** ** Sinks that reconfigure logging *)

(** Two [error] events through a sink that calls [set_level(off)]: the
    first is delivered, the second is filtered by the level the first call
    left. *)
Example run_silencing_sink :
  let p' := snd (any_sink.log_all any_sink.silencing_program
                   [ LogEvent detail.error None 0 None (Some "a") [];
                     LogEvent detail.error None 0 None (Some "b") [] ]
                   any_sink.silencing_start) in
  sink_calls p' = [SinkCall (user_sink_ref 0) detail.error None 0 None (Some "a") []]
  /\ log.get_level p' = detail.off.
Proof. split; reflexivity. Qed.

(** [TC_GUARD(ok = false)], the caller having a variable [ok] of its own
    at [true]: the guard is [false] under both expansions and the
    caller's variable is as it was. *)
Example run_guard_captures_ok :
  TC_GUARD true (set_local false) (tests.start true) = (Normal false, tests.start true)
  /\ TC_GUARD false (set_local false) (tests.start true) = (Normal false, tests.start true).
Proof. split; reflexivity. Qed.

(** ** The tests of the ready-made handlers, run on the model *)

Example run_StdWarnDoAndAs :
  vars (env (snd (helper_tests.StdWarnDoAndAs true true (tests.start (0, 0))))) = (1, 0)
  /\ stderr (env (snd (helper_tests.StdWarnDoAndAs true true (tests.start (0, 0)))))
     = "[WARN] test.cpp:10 TestBody: exception: boom" ++ LF.
Proof. split; reflexivity. Qed.

Example run_AllErrorDo :
  vars (env (snd (helper_tests.AllErrorDo true true (tests.start (0, 0))))) = (42, 0)
  /\ stderr (env (snd (helper_tests.AllErrorDo true true (tests.start (0, 0)))))
     = "[ERROR] test.cpp:19 TestBody: unknown exception" ++ LF.
Proof. split; reflexivity. Qed.

Example run_CompileAwayButBodyPresent :
  helper_tests.CompileAwayButBodyPresent true true (tests.start (0, 0))
  = (Normal tt, tests.start (1, 0)).
Proof. reflexivity. Qed.

Example run_CatchMacrosCompileAway :
  helper_tests.CatchMacrosCompileAway true true (tests.start 0) = (Normal tt, tests.start 1).
Proof. reflexivity. Qed.

Example run_StdCatchWarnErrorMacrosCompile :
  fst (helper_tests.StdCatchWarnErrorMacrosCompile true true (tests.start tt)) = Normal tt.
Proof. reflexivity. Qed.

(** ** The logging dispatcher *)

Section MoreLogging.
Context {U : Type}.
Variable vformat : string -> va_list -> string.
Variable user_sinks : nat -> log_sink_fn U.

Local Abbreviation logf := (detail.logf vformat user_sinks).
Local Abbreviation one := (log_one vformat user_sinks).
Local Abbreviation run := (log_all vformat user_sinks).
Local Abbreviation effect := (sink_effect vformat user_sinks).


Lemma logf_push_handled (e : exn) (E : log_level) file line func fmt ap (p : proc U) :
  logf E file line func fmt ap (push_handled e p)
  = push_handled e (logf E file line func fmt ap p).
Proof.
  unfold detail.logf, detail.vlog_dispatch. simpl.
  destruct (static_cast_int E <? runtime_log_level p)%Z; [reflexivity | ].
  destruct (runtime_sink p); reflexivity.
Qed.

Lemma level_name_cases (lvl : log_level) :
  (0 <= level_value lvl <= 5 /\ detail.level_name lvl <> "LOG")
  \/ (~ 0 <= level_value lvl <= 5 /\ detail.level_name lvl = "LOG").
Proof.
  unfold detail.level_name. destruct (level_value lvl) as [ | q | q].
  - left. split; [lia | discriminate].
  - destruct q as [[[q | q | ] | [q | q | ] | ] | [[q | q | ] | [q | q | ] | ] | ];
      try (right; split; [lia | reflexivity]);
      left; (split; [lia | discriminate]).
  - right. split; [lia | reflexivity].
Qed.

(** What [default_stderr_sink] leaves on the standard error stream. *)
Lemma default_sink_stderr (lvl : log_level) (file : cstr) (line : Z) (func fmt : cstr)
    (ap : va_list) (w : world U) :
  stderr (detail.default_stderr_sink vformat lvl file line func fmt ap w)
  = stderr w ++ ("[" ++ detail.level_name lvl ++ "] " ++ or_default file "(unknown)" ++ ":"
                 ++ fmt_d line ++ " " ++ or_default func "(unknown)" ++ ": "
                 ++ vformat (or_default fmt "(null)") ap ++ LF).
Proof.
  unfold detail.default_stderr_sink, fputs_stderr. simpl.
  set (nm := detail.level_name lvl).
  repeat (first [rewrite append_assoc | progress simpl]). reflexivity.
Qed.

(** X1: [default_stderr_sink] appends exactly one line
    [[NAME] file:line func: message] and a newline to the standard error
    stream and touches nothing else; a null file or function prints as
    [(unknown)], a null format is rendered as [(null)], and the name is
    [LOG] exactly for a level that is none of the six enumerators. *)
Theorem default_sink_writes_one_line (lvl : log_level) (file : cstr) (line : Z)
    (func fmt : cstr) (ap : va_list) (w : world U) :
  let w' := detail.default_stderr_sink vformat lvl file line func fmt ap w in
  stderr w'
  = stderr w ++ ("[" ++ detail.level_name lvl ++ "] " ++ or_default file "(unknown)" ++ ":"
                 ++ fmt_d line ++ " " ++ or_default func "(unknown)" ++ ": "
                 ++ vformat (or_default fmt "(null)") ap ++ LF)
  /\ vars w' = vars w
  /\ (detail.level_name lvl = "LOG" <-> ~ 0 <= level_value lvl <= 5).
Proof.
  cbv zeta. split; [ | split].
  - apply default_sink_stderr.
  - reflexivity.
  - destruct (level_name_cases lvl) as [[Hin Hne] | [Hout Heq]]; split; intros H;
      try assumption; try contradiction.
Qed.



(** X3: with a null sink a run of [logf] calls of any length leaves the
    process as it was. *)
Theorem log_run_null_sink (evs : list log_event) (p : proc U) :
  runtime_sink p = None -> run evs p = p.
Proof.
  intros Hs. induction evs as [ | ev rest IH]; [reflexivity | ].
  change (run (ev :: rest) p) with (run rest (one ev p)).
  replace (one ev p) with p; [exact IH | ].
  unfold log_one, detail.logf, detail.vlog_dispatch. rewrite Hs.
  destruct (static_cast_int (ev_level ev) <? runtime_log_level p)%Z; reflexivity.
Qed.

(** X4: the filter is the integer comparison and nothing more: an event
    logged at level [off], or at any greater value, goes to the sink under
    each of the six minimum levels, [off] included, and an event at a
    negative value goes to the sink under none of them. *)
Theorem off_level_event_passes (L E : log_level) (s : sink_ref) file line func fmt ap
    (p : proc U) :
  In L (detail.event_levels ++ [detail.off])%list ->
  log.get_level p = L ->
  log.get_sink p = Some s ->
  (level_value detail.off <= level_value E ->
     sink_calls (logf E file line func fmt ap p)
     = (sink_calls p ++ [SinkCall s E file line func fmt ap])%list)
  /\ (level_value E < 0 -> logf E file line func fmt ap p = p).
Proof.
  intros HL Hlvl Hs.
  assert (Hrange : 0 <= runtime_log_level p <= 5).
  { unfold log.get_level, detail.get_log_level, static_cast_log_level in Hlvl.
    subst L. simpl in HL.
    repeat (destruct HL as [HL | HL]; [injection HL as HL; lia | ]). contradiction. }
  split; intros HE.
  - rewrite (logf_passed vformat user_sinks E s file line func fmt ap p);
      [reflexivity | simpl in HE; lia | exact Hs].
  - apply logf_filtered. lia.
Qed.

(** X5: writing back what [get_level] and [get_sink] returned changes
    nothing, and the save-and-restore of the logging test brings the
    configuration back whatever level and sink were set and whatever was
    logged in between. *)
Theorem config_save_restore (L : log_level) (s : log_sink_t) (evs : list log_event)
    (p : proc U) :
  log.set_level (log.get_level p) p = p
  /\ log.set_sink (log.get_sink p) p = p
  /\ (let prev_sink := log.get_sink p in
      let prev_lvl := log.get_level p in
      let q := run evs (log.set_level L (log.set_sink s p)) in
      let r := log.set_level prev_lvl (log.set_sink prev_sink q) in
      log.get_level r = log.get_level p
      /\ log.get_sink r = log.get_sink p
      /\ env r = env q
      /\ sink_calls r = sink_calls q).
Proof.
  split; [destruct p; reflexivity | ].
  split; [destruct p; reflexivity | ].
  cbv zeta. repeat split.
Qed.

(** X6: a new sink or a new minimum level is in force for the very next
    log call: after [set_sink(s)] an event that passes the level goes to
    [s], whatever sink, null or not, was there before, and after
    [set_level(L)] an event is delivered if and only if its level is not
    below [L], whatever the level was before. *)
Theorem reconfiguration_takes_effect (L E : log_level) (s : sink_ref) file line func fmt ap
    (p : proc U) :
  (runtime_log_level p <= level_value E ->
     sink_calls (logf E file line func fmt ap (log.set_sink (Some s) p))
     = (sink_calls p ++ [SinkCall s E file line func fmt ap])%list
     /\ env (logf E file line func fmt ap (log.set_sink (Some s) p))
        = detail.sink_body vformat user_sinks s E file line func fmt ap (env p))
  /\ (runtime_sink p = Some s ->
      (sink_calls (logf E file line func fmt ap (log.set_level L p)) <> sink_calls p
       <-> level_value L <= level_value E)).
Proof.
  split.
  - intros HE.
    rewrite (logf_passed vformat user_sinks E s file line func fmt ap
               (log.set_sink (Some s) p)); [split; reflexivity | exact HE | reflexivity].
  - intros Hs.
    destruct (Z.lt_ge_cases (level_value E) (level_value L)) as [Hlt | Hge].
    + rewrite logf_filtered by exact Hlt. simpl. split; [congruence | lia].
    + rewrite (logf_passed vformat user_sinks E s file line func fmt ap
                 (log.set_level L p)) by (simpl; assumption).
      simpl. split; [intros _; exact Hge | intros _; apply app_one_neq].
Qed.

End MoreLogging.

(** ** The sink of the logging test *)






(** ** Build-time configuration *)

(** X8: in a build that defines neither [TC_DEBUG] nor [TC_RELEASE] the
    process starts with the header's own sink and with minimum level
    [debug], or [info] under [NDEBUG]; until the level or the sink is
    changed a log call writes its line to the standard error stream when
    its level is not below that minimum, and writes nothing otherwise. *)
Theorem startup_delivery {U} (vformat : string -> va_list -> string)
    (user_sinks : nat -> log_sink_fn U) (d : build_defines) (u : U)
    (E : log_level) (file : cstr) (line : Z) (func fmt : cstr) (ap : va_list) :
  def_TC_DEBUG d = None ->
  def_TC_RELEASE d = None ->
  let p := boot d u in
  let minimum := if def_NDEBUG d then detail.info else detail.debug in
  let p' := detail.logf vformat user_sinks E file line func fmt ap p in
  log.get_level p = minimum
  /\ log.get_sink p = Some default_stderr_sink_ref
  /\ stderr (env p')
     = (if (level_value E <? level_value minimum)%Z then ""
        else "[" ++ detail.level_name E ++ "] " ++ or_default file "(unknown)" ++ ":"
             ++ fmt_d line ++ " " ++ or_default func "(unknown)" ++ ": "
             ++ vformat (or_default fmt "(null)") ap ++ LF)
  /\ vars (env p') = u.
Proof.
  intros Hd Hr p minimum p'.
  assert (Hlvl : runtime_log_level p = level_value minimum).
  { subst p minimum. unfold boot, TC_DEBUG_on, detect_TC_DEBUG. rewrite Hd, Hr.
    destruct (def_NDEBUG d); reflexivity. }
  assert (Hsink : runtime_sink p = Some default_stderr_sink_ref) by reflexivity.
  split; [ | split; [exact Hsink | ] ].
  - unfold log.get_level, detail.get_log_level, static_cast_log_level. rewrite Hlvl.
    destruct minimum; reflexivity.
  - subst p'. destruct (Z.ltb_spec (level_value E) (level_value minimum)) as [Hlt | Hge].
    + rewrite logf_filtered by (rewrite Hlvl; exact Hlt). split; reflexivity.
    + rewrite (logf_passed vformat user_sinks E default_stderr_sink_ref file line func fmt ap p)
        by (rewrite ?Hlvl; assumption).
      unfold detail.call_sink. cbn [env detail.sink_body].
      rewrite default_sink_stderr. split; reflexivity.
Qed.

(** X9: when the build defines neither [TC_DEBUG] nor [TC_RELEASE], exactly
    one of the two is 1, debug being the one unless [NDEBUG] is defined,
    and [TC_ENABLE_LOGGING], unless set by the build, follows [TC_DEBUG].
    When the build defines either of the two the header defines neither;
    a build that defines [TC_RELEASE] alone, even as 0, therefore has
    [TC_DEBUG] off, logging of warnings compiled out by default and [info]
    as the starting level. *)
Theorem build_type_detection (d : build_defines) :
  (def_TC_DEBUG d = None -> def_TC_RELEASE d = None ->
     pp_value (detect_TC_DEBUG d) + pp_value (detect_TC_RELEASE d) = 1
     /\ TC_DEBUG_on d = negb (def_NDEBUG d)
     /\ (def_TC_ENABLE_LOGGING d = None ->
           detect_TC_ENABLE_LOGGING d = pp_value (detect_TC_DEBUG d)))
  /\ (def_TC_DEBUG d <> None \/ def_TC_RELEASE d <> None ->
        detect_TC_DEBUG d = def_TC_DEBUG d /\ detect_TC_RELEASE d = def_TC_RELEASE d)
  /\ (def_TC_DEBUG d = None -> def_TC_RELEASE d <> None ->
        TC_DEBUG_on d = false
        /\ (def_TC_ENABLE_LOGGING d = None -> detect_TC_ENABLE_LOGGING d = 0)
        /\ detail.initial_log_level (TC_DEBUG_on d) = static_cast_int detail.info).
Proof.
  unfold detect_TC_ENABLE_LOGGING, TC_DEBUG_on, detect_TC_DEBUG, detect_TC_RELEASE.
  split; [ | split].
  - intros -> ->. destruct (def_NDEBUG d); simpl; repeat split; intros ->; reflexivity.
  - intros [H | H]; destruct (def_TC_DEBUG d), (def_TC_RELEASE d);
      try contradiction; split; reflexivity.
  - intros -> H. destruct (def_TC_RELEASE d); [ | contradiction].
    simpl. repeat split. intros ->. reflexivity.
Qed.

(** X10: a value the build gives [TC_EXCEPTIONS_ENABLED] is kept as it is.
    Without one the macro is 0 or 1, and it is 1 exactly when
    [__cpp_exceptions] or [__EXCEPTIONS] is defined, or [_MSC_VER] and
    [_CPPUNWIND] both are, or [_HAS_EXCEPTIONS] is defined as 1; so
    [_HAS_EXCEPTIONS] can turn the macro on but, once a compiler indicator
    is there, not off. *)
Theorem exceptions_detection (d : build_defines) (t : toolchain) :
  (forall v : Z, def_TC_EXCEPTIONS_ENABLED d = Some v -> detect_TC_EXCEPTIONS_ENABLED d t = v)
  /\ (def_TC_EXCEPTIONS_ENABLED d = None ->
      (detect_TC_EXCEPTIONS_ENABLED d t = 0 \/ detect_TC_EXCEPTIONS_ENABLED d t = 1)
      /\ (detect_TC_EXCEPTIONS_ENABLED d t = 1 <->
          has_cpp_exceptions t = true \/ has_EXCEPTIONS t = true
          \/ (has_MSC_VER t = true /\ has_CPPUNWIND t = true)
          \/ val_HAS_EXCEPTIONS t = Some 1)
      /\ (has_cpp_exceptions t = true \/ has_EXCEPTIONS t = true
          \/ (has_MSC_VER t = true /\ has_CPPUNWIND t = true) ->
          detect_TC_EXCEPTIONS_ENABLED d t = 1)).
Proof.
  unfold detect_TC_EXCEPTIONS_ENABLED. split.
  - intros v ->. reflexivity.
  - intros ->.
    destruct (has_cpp_exceptions t), (has_EXCEPTIONS t), (has_MSC_VER t), (has_CPPUNWIND t);
      simpl; try (split; [right; reflexivity | split; [split; auto | auto]]).
    all: destruct (val_HAS_EXCEPTIONS t) as [v | ]; [destruct (Z.eqb_spec v 1) | ].
    all: split; [auto | split; [split | ] ].
    all: try solve [subst; auto 6 | discriminate | intros _; auto 6
                    | intros [H | [H | [[H1 H2] | H]]]; try discriminate; congruence
                    | intros [H | [H | [H1 H2]]]; discriminate ].
Qed.

(** ** Branch prediction hints *)

(** X11: [TC_LIKELY(x)] and [TC_UNLIKELY(x)] are zero exactly when [x] is,
    and equal to each other, under either expansion.  Under GCC and Clang
    the value is 0 or 1, so it equals [x] only for [x] in 0, 1; elsewhere
    it is [x] itself. *)
Theorem likely_keeps_truth (t : toolchain) (x : Z) :
  (TC_LIKELY t x = 0 <-> x = 0)
  /\ (TC_UNLIKELY t x = 0 <-> x = 0)
  /\ TC_LIKELY t x = TC_UNLIKELY t x
  /\ (is_gnu t = true ->
        (TC_LIKELY t x = 0 \/ TC_LIKELY t x = 1) /\ (TC_LIKELY t x = x <-> x = 0 \/ x = 1))
  /\ (is_gnu t = false -> TC_LIKELY t x = x).
Proof.
  unfold TC_LIKELY, TC_UNLIKELY, builtin_expect, not_not.
  destruct (is_gnu t); destruct (Z.eqb_spec x 0); repeat split; intros; try lia; try discriminate.
Qed.

(** ** The try/catch macros with exceptions enabled *)

Lemma class_eqb_eq (a b : cpp_class) : class_eqb a b = true -> a = b.
Proof.
  revert b. induction a as [ | | n | n a IH]; intros [ | | m | m b]; simpl;
    try discriminate; try reflexivity.
  - intros H. apply String.eqb_eq in H. subst. reflexivity.
  - intros H. apply andb_true_iff in H. destruct H as [Hn Hb].
    apply String.eqb_eq in Hn. apply IH in Hb. subst. reflexivity.
Qed.

Lemma derives_unfold (c t : cpp_class) :
  derives c t =
  class_eqb c t ||
  match c with
  | std_exception => false
  | std_runtime_error => class_eqb std_exception t
  | user_root _ => false
  | user_derived _ b => derives b t
  end.
Proof. destruct c; reflexivity. Qed.

(** A base of a base is a base. *)
Lemma derives_trans (c s g : cpp_class) :
  derives c s = true -> derives s g = true -> derives c g = true.
Proof.
  revert s g. induction c as [ | | n | n b IH]; intros s g Hcs Hsg;
    rewrite derives_unfold in Hcs;
    apply orb_true_iff in Hcs; destruct Hcs as [Heq | Hbase];
    try (apply class_eqb_eq in Heq; subst s; exact Hsg); try discriminate.
  - apply class_eqb_eq in Hbase. subst s. rewrite derives_unfold in Hsg.
    rewrite orb_false_r in Hsg. apply class_eqb_eq in Hsg. subst g. reflexivity.
  - rewrite derives_unfold. rewrite (IH s g Hbase Hsg). apply orb_true_r.
Qed.

Lemma find_handler_none {U} (clauses : list (tc_clause U)) (e : exn) :
  forallb (fun c => negb (clause_accepts c e)) clauses = true ->
  find_handler (map expand_catch clauses) e = None.
Proof.
  induction clauses as [ | c rest IH]; simpl; [reflexivity | ].
  intros H. apply andb_true_iff in H. destruct H as [Hc Hrest].
  unfold clause_accepts in Hc. destruct (expand_catch c) as [d h]. simpl in Hc.
  destruct (catch_matches d e); [discriminate | apply IH; exact Hrest].
Qed.

Lemma find_handler_catch_all {U} (clauses : list (tc_clause U)) (e : exn) :
  (exists h, In (TC_CATCH_ALL h) clauses) ->
  exists h, In h (map clause_body clauses)
            /\ find_handler (map expand_catch clauses) e = Some h.
Proof.
  induction clauses as [ | c rest IH]; intros [h0 Hin]; [contradiction | ].
  destruct c as [T b | b]; cbn [map expand_catch find_handler clause_body].
  - destruct (catch_matches (catch_type T) e).
    + exists b. split; [left; reflexivity | reflexivity].
    + destruct Hin as [Hin | Hin]; [discriminate | ].
      destruct (IH (ex_intro _ h0 Hin)) as [h [Hh Hf]].
      exists h. split; [right; exact Hh | exact Hf].
  - exists b. split; [left; reflexivity | reflexivity].
Qed.

(** [TC_TRY] with exceptions enabled, when the body raises. *)
Lemma TC_TRY_enabled_raised {U} (body : M U unit) (clauses : list (tc_clause U))
    (e : exn) (p p1 : proc U) :
  body p = (Raised e, p1) ->
  TC_TRY true body clauses p =
  match find_handler (map expand_catch clauses) e with
  | Some h => run_handler e h p1
  | None => (Raised e, p1)
  end.
Proof. intros H. unfold TC_TRY, cpp_try. rewrite H. reflexivity. Qed.

(** X12: for code that does not raise, the two expansions agree: a
    [TC_TRY] statement whose body does not end by an exception is that
    body under both, whatever the clauses, and [TC_GUARD] of an operation
    that does not end by an exception gives the same result under both,
    whether the operation names the local [ok] of the guard or not. *)
Theorem modes_agree_without_raise {U A} (body : M U unit) (clauses : list (tc_clause U))
    (expr : M U A) (scoped : M (bool * U) A) (p : proc U) :
  ((forall (e : exn) (p1 : proc U), body p <> (Raised e, p1)) ->
     TC_TRY true body clauses p = body p
     /\ TC_TRY true body clauses p = TC_TRY false body clauses p)
  /\ ((forall (e : exn) (p1 : proc U), expr p <> (Raised e, p1)) ->
        TC_GUARD true (outer expr) p = TC_GUARD false (outer expr) p)
  /\ ((forall (e : exn) (q : proc (bool * U)),
          scoped (with_vars (true, vars (env p)) p) <> (Raised e, q)) ->
        TC_GUARD true scoped p = TC_GUARD false scoped p).
Proof.
  split; [ | split].
  - intros Hno. rewrite TC_TRY_disabled.
    assert (H : TC_TRY true body clauses p = body p).
    { unfold TC_TRY, cpp_try. destruct (body p) as [[[] | e | ] p1] eqn:Hb; try reflexivity.
      exfalso. apply (Hno e p1). reflexivity. }
    split; exact H.
  - intros Hno. rewrite guard_enabled_run, guard_disabled_run.
    destruct (expr p) as [[v | e | ] p1]; try reflexivity.
    exfalso. apply (Hno e p1). reflexivity.
  - intros Hno. rewrite !guard_run.
    destruct (scoped (with_vars (true, vars (env p)) p)) as [[v | e | ] q]; try reflexivity.
    exfalso. apply (Hno e q). reflexivity.
Qed.

(** X13: with exceptions enabled, an exception that none of the clauses
    accepts leaves the [TC_TRY] statement as it left the body, no clause
    body having run; and with a [TC_CATCH_ALL] among the clauses every
    exception from the body is taken by one of the clauses. *)
Theorem unmatched_exception_propagates {U} (body : M U unit) (clauses : list (tc_clause U))
    (e : exn) (p p1 : proc U) :
  body p = (Raised e, p1) ->
  (forallb (fun c => negb (clause_accepts c e)) clauses = true ->
     TC_TRY true body clauses p = (Raised e, p1))
  /\ ((exists h, In (TC_CATCH_ALL h) clauses) ->
        exists h, In h (map clause_body clauses)
                  /\ TC_TRY true body clauses p = run_handler e h p1).
Proof.
  intros Hb. rewrite (TC_TRY_enabled_raised body clauses e p p1 Hb). split.
  - intros Hnone. rewrite (find_handler_none clauses e Hnone). reflexivity.
  - intros Hall. destruct (find_handler_catch_all clauses e Hall) as [h [Hin Hf]].
    exists h. rewrite Hf. auto.
Qed.

(** X14: with exceptions enabled, a handler for a class placed before a
    handler for a class derived from it takes every object the second
    would take: the second handler never runs, whatever the body raises. *)
Theorem base_handler_first_shadows {U} (G S : cpp_class) (body hG hS hS' : M U unit)
    (rest : list (tc_clause U)) (p : proc U) :
  derives S G = true ->
  TC_TRY true body (TC_CATCH (ty_class G) hG :: TC_CATCH (ty_class S) hS :: rest) p
  = TC_TRY true body (TC_CATCH (ty_class G) hG :: TC_CATCH (ty_class S) hS' :: rest) p
  /\ (forall (c : cpp_class) (w : string) (p1 : proc U),
        body p = (Raised (thrown_obj c w), p1) ->
        derives c S = true ->
        TC_TRY true body (TC_CATCH (ty_class G) hG :: TC_CATCH (ty_class S) hS :: rest) p
        = run_handler (thrown_obj c w) hG p1).
Proof.
  intros HSG. split.
  - unfold TC_TRY, cpp_try. destruct (body p) as [[[] | e | ] p1]; try reflexivity.
    simpl. destruct e as [v | c w]; simpl; [reflexivity | ].
    destruct (derives c G) eqn:HcG; [reflexivity | ].
    destruct (derives c S) eqn:HcS; [ | reflexivity].
    rewrite (derives_trans c S G HcS HSG) in HcG. discriminate.
  - intros c w p1 Hb HcS. rewrite (TC_TRY_enabled_raised _ _ _ p p1 Hb). simpl.
    rewrite (derives_trans c S G HcS HSG). reflexivity.
Qed.

(** X15: with exceptions enabled, when the handler of an inner [TC_TRY]
    does its work and ends in [TC_RETHROW()], the object leaves the inner
    statement past its remaining clauses, a catch-all included, and the
    first matching clause of the enclosing [TC_TRY] runs once for the same
    object, from the state the inner handler left. *)
Theorem rethrow_reaches_outer_once {U} (TC_ABORT : abort_hook U) (loc : source_location)
    (T1 T2 : cpp_type) (body work h_out : M U unit)
    (inner_rest outer_rest : list (tc_clause U)) (e : exn) (p p1 p2 : proc U) :
  body p = (Raised e, p1) ->
  catch_matches (catch_type T1) e = true ->
  work (push_handled e p1) = (Normal tt, p2) ->
  handled p2 = (e :: handled p1)%list ->
  catch_matches (catch_type T2) e = true ->
  let inner := TC_TRY true body
                 (TC_CATCH T1 (work ;; TC_RETHROW true TC_ABORT loc) :: inner_rest) in
  inner p = (Raised e, pop_handled p2)
  /\ TC_TRY true inner (TC_CATCH T2 h_out :: outer_rest) p
     = run_handler e h_out (pop_handled p2).
Proof.
  intros Hb H1 Hw Hh H2 inner.
  assert (Hinner : inner p = (Raised e, pop_handled p2)).
  { subst inner. rewrite (TC_TRY_enabled_raised _ _ _ p p1 Hb).
    cbn [map expand_catch find_handler]. rewrite H1.
    unfold run_handler, bind. rewrite Hw. unfold TC_RETHROW, cpp_rethrow. rewrite Hh.
    reflexivity. }
  split; [exact Hinner | ].
  rewrite (TC_TRY_enabled_raised _ _ _ p (pop_handled p2) Hinner).
  cbn [map expand_catch find_handler]. rewrite H2. reflexivity.
Qed.

(** X16: [TC_RETHROW()] where no exception is being handled ends the
    process under both expansions, through [std::terminate] with
    exceptions enabled and through the abort hook of the header without;
    inside a handler, with exceptions enabled, it raises the object the
    handler was entered for. *)
Theorem rethrow_outside_handler_terminates {U} (enabled : bool) (loc : source_location)
    (e : exn) (p : proc U) :
  (handled p = [] -> fst (TC_RETHROW enabled TC_ABORT_default loc p) = Terminated)
  /\ run_handler e (TC_RETHROW true TC_ABORT_default loc) p = (Raised e, p).
Proof.
  split.
  - intros Hh. destruct enabled; simpl; [ | reflexivity].
    unfold cpp_rethrow. rewrite Hh. reflexivity.
  - unfold run_handler, TC_RETHROW, cpp_rethrow. simpl. destruct p; reflexivity.
Qed.

(** X17: under both expansions [TC_GUARD] lets no exception out.  When the
    wrapped operation returns, the guard returns the last value of its
    local [ok] and leaves the process as the operation left it, the local
    gone.  The guard ends the process only when the operation does or,
    with exceptions disabled, when the operation raises.  A guard around a
    guard is never [false]. *)
Theorem guard_never_raises {U A} (enabled : bool) (expr : M (bool * U) A) (p : proc U) :
  (forall (e : exn) (p1 : proc U), TC_GUARD enabled expr p <> (Raised e, p1))
  /\ (forall (v : A) (q : proc (bool * U)),
        expr (with_vars (true, vars (env p)) p) = (Normal v, q) ->
        TC_GUARD enabled expr p
        = (Normal (fst (vars (env q))), with_vars (snd (vars (env q))) q))
  /\ (fst (TC_GUARD enabled expr p) = Terminated <->
      fst (expr (with_vars (true, vars (env p)) p)) = Terminated
      \/ (enabled = false
          /\ exists e : exn, fst (expr (with_vars (true, vars (env p)) p)) = Raised e))
  /\ (forall p1 : proc U,
        TC_GUARD enabled (outer (TC_GUARD enabled expr)) p <> (Normal false, p1)).
Proof.
  split; [ | split; [ | split]].
  - intros e p1. rewrite guard_run.
    destruct (expr (with_vars (true, vars (env p)) p)) as [[v | e0 | ] q]; destruct enabled;
      discriminate.
  - intros v q H. rewrite guard_run, H. reflexivity.
  - rewrite guard_run.
    destruct (expr (with_vars (true, vars (env p)) p)) as [[v | e0 | ] q];
      destruct enabled; simpl; split; intros H;
      try congruence;
      try (destruct H as [H | [H1 [e1 H]]]; congruence);
      try (left; reflexivity);
      try (right; split; [reflexivity | exists e0; reflexivity]).
  - intros p1.
    assert (Hinner : forall (e : exn) (p2 : proc U), TC_GUARD enabled expr p <> (Raised e, p2)).
    { intros e p2. rewrite guard_run.
      destruct (expr (with_vars (true, vars (env p)) p)) as [[v | e0 | ] q];
        destruct enabled; discriminate. }
    destruct enabled; [rewrite guard_enabled_run | rewrite guard_disabled_run];
      destruct (TC_GUARD _ expr p) as [[b | e | ] p2] eqn:Hg; try discriminate;
      exfalso; apply (Hinner e p2); reflexivity.
Qed.

(** X21: around an operation that does not name the local [ok] of the
    guard, [TC_GUARD] is [true] when the operation returns, under both
    expansions and whatever the operation returned or did to the process,
    which is then as the operation left it; with exceptions enabled it is
    [false] when the operation raises, whatever the object, and with
    exceptions disabled it is never [false].  For the [may_throw] of the
    example it is [true] at 1 under both, and at -1 [false] with
    exceptions enabled and [true] without; for the [may_throw] of the test
    with exceptions disabled it is [true] at every input. *)
Theorem guard_of_plain_operation {U A} (enabled : bool) (c : M U A) (p : proc U)
    (TC_ABORT : abort_hook U) (loc : source_location) :
  (forall (v : A) (p1 : proc U),
      c p = (Normal v, p1) -> TC_GUARD enabled (outer c) p = (Normal true, p1))
  /\ (forall (e : exn) (p1 : proc U),
        c p = (Raised e, p1) -> TC_GUARD true (outer c) p = (Normal false, p1))
  /\ (forall p1 : proc U, TC_GUARD false (outer c) p <> (Normal false, p1))
  /\ TC_GUARD enabled (outer (may_throw enabled TC_ABORT loc 1)) p = (Normal true, p)
  /\ TC_GUARD true (outer (may_throw true TC_ABORT loc (-1))) p = (Normal false, p)
  /\ TC_GUARD false (outer (may_throw false TC_ABORT loc (-1))) p = (Normal true, p)
  /\ (forall x : Z,
        TC_GUARD false (outer (may_throw_test false TC_ABORT loc x)) p = (Normal true, p)).
Proof.
  split; [ | split; [ | split; [ | split; [ | split; [ | split]]]]].
  - intros v p1 H.
    destruct enabled; [rewrite guard_enabled_run | rewrite guard_disabled_run];
      rewrite H; reflexivity.
  - intros e p1 H. rewrite guard_enabled_run, H. reflexivity.
  - intros p1. rewrite guard_disabled_run.
    destruct (c p) as [[v | e | ] p2]; discriminate.
  - destruct enabled; [rewrite guard_enabled_run | rewrite guard_disabled_run]; reflexivity.
  - rewrite guard_enabled_run. reflexivity.
  - rewrite guard_disabled_run. reflexivity.
  - intros x. rewrite guard_disabled_run. reflexivity.
Qed.

(** ** The ready-made handlers *)

Lemma pop_after_push {U} (e : exn) (p : proc U) : pop_handled (push_handled e p) = p.
Proof. destruct p; reflexivity. Qed.

Lemma TC_LOG_push_handled {U} (vformat : string -> va_list -> string)
    (user_sinks : nat -> log_sink_fn U) (lvl : log_level) (loc : source_location)
    (fmt : string) (args : va_list) (e : exn) (p : proc U) :
  detail.TC_LOG vformat user_sinks lvl loc fmt args (push_handled e p)
  = push_handled e (detail.TC_LOG vformat user_sinks lvl loc fmt args p).
Proof. unfold detail.TC_LOG. apply logf_push_handled. Qed.

(** The log statement of a ready-made handler, run for [e]. *)
Lemma warn_in_handler {U} (vformat : string -> va_list -> string)
    (user_sinks : nat -> log_sink_fn U) (logging : bool) (loc : source_location)
    (e : exn) (p : proc U) :
  std_handler_log true (TC_WARN vformat user_sinks logging) loc (push_handled e p)
  = (Normal tt,
     push_handled e
       (if logging
        then detail.TC_LOG_WARN vformat user_sinks loc "exception: %s" [va_str (what_of e)] p
        else p)).
Proof.
  unfold std_handler_log, TC_WARN, exec, what_args, current_what, detail.TC_LOG_WARN.
  destruct logging; [ | reflexivity].
  rewrite TC_LOG_push_handled. reflexivity.
Qed.

Lemma unknown_in_handler {U} (vformat : string -> va_list -> string)
    (user_sinks : nat -> log_sink_fn U) (error_logging : bool) (loc : source_location)
    (e : exn) (p : proc U) :
  TC_ERROR vformat user_sinks error_logging loc "unknown exception" no_args (push_handled e p)
  = (Normal tt,
     push_handled e
       (if error_logging
        then detail.TC_LOG_ERROR vformat user_sinks loc "unknown exception" [] p
        else p)).
Proof.
  unfold TC_ERROR, exec, no_args, detail.TC_LOG_ERROR.
  destruct error_logging; [ | reflexivity].
  rewrite TC_LOG_push_handled. reflexivity.
Qed.

(** X18: with exceptions enabled, a [TC_TRY] closed by
    [TC_CATCH_STD_WARN()] and [TC_CATCH_ALL_ERROR()] swallows whatever the
    body raises and goes on normally.  For an object derived from
    [std::exception] the only effect is one [TC_LOG_WARN] of
    ["exception: %s"] with its [what()], and none where [TC_ENABLE_LOGGING]
    is 0; for any other object it is one [TC_LOG_ERROR] of
    ["unknown exception"], and none where [TC_ENABLE_ERROR_LOGGING] is 0. *)
Theorem ready_made_handlers_log_and_swallow {U} (vformat : string -> va_list -> string)
    (user_sinks : nat -> log_sink_fn U) (logging error_logging : bool)
    (body : M U unit) (loc1 loc2 : source_location) (e : exn) (p p1 : proc U) :
  body p = (Raised e, p1) ->
  TC_TRY true body
    [ TC_CATCH_STD_WARN vformat user_sinks true logging loc1;
      TC_CATCH_ALL_ERROR vformat user_sinks error_logging loc2 ] p
  = (Normal tt,
     if is_std_exception e
     then (if logging
           then detail.TC_LOG_WARN vformat user_sinks loc1 "exception: %s"
                                   [va_str (what_of e)] p1
           else p1)
     else (if error_logging
           then detail.TC_LOG_ERROR vformat user_sinks loc2 "unknown exception" [] p1
           else p1)).
Proof.
  intros Hb. rewrite (TC_TRY_enabled_raised _ _ _ p p1 Hb).
  unfold TC_CATCH_STD_WARN, TC_CATCH_ALL_ERROR, is_std_exception.
  cbn [map expand_catch find_handler].
  destruct (catch_matches (catch_type (ty_class std_exception)) e).
  - unfold run_handler. rewrite warn_in_handler, pop_after_push. reflexivity.
  - cbn [catch_matches]. unfold run_handler.
    rewrite unknown_in_handler, pop_after_push. reflexivity.
Qed.

(** X19: with exceptions enabled, the [_DO] handlers run the user's body
    exactly once, after the log statement and with the caught object still
    being handled; [TC_CATCH_STD_WARN_DO] alone lets an object that is not
    derived from [std::exception] pass, with nothing logged and the body
    not run.  With exceptions disabled neither the log statement nor the
    body runs. *)
Theorem do_handlers_run_body_once {U} (vformat : string -> va_list -> string)
    (user_sinks : nat -> log_sink_fn U) (logging error_logging : bool)
    (body BODY : M U unit) (loc : source_location) (e : exn) (p p1 : proc U) :
  body p = (Raised e, p1) ->
  TC_TRY true body [TC_CATCH_STD_WARN_DO vformat user_sinks true logging loc BODY] p
  = (if is_std_exception e
     then run_handler e BODY
            (if logging
             then detail.TC_LOG_WARN vformat user_sinks loc "exception: %s"
                                     [va_str (what_of e)] p1
             else p1)
     else (Raised e, p1))
  /\ TC_TRY true body [TC_CATCH_ALL_ERROR_DO vformat user_sinks error_logging loc BODY] p
     = run_handler e BODY
         (if error_logging
          then detail.TC_LOG_ERROR vformat user_sinks loc "unknown exception" [] p1
          else p1)
  /\ TC_TRY false body
       [ TC_CATCH_STD_WARN_DO vformat user_sinks false logging loc BODY;
         TC_CATCH_ALL_ERROR_DO vformat user_sinks error_logging loc BODY ] p
     = body p.
Proof.
  intros Hb. split; [ | split].
  - rewrite (TC_TRY_enabled_raised _ _ _ p p1 Hb).
    unfold TC_CATCH_STD_WARN_DO, is_std_exception. cbn [map expand_catch find_handler].
    destruct (catch_matches (catch_type (ty_class std_exception)) e); [ | reflexivity].
    unfold run_handler, bind. rewrite warn_in_handler. reflexivity.
  - rewrite (TC_TRY_enabled_raised _ _ _ p p1 Hb).
    unfold TC_CATCH_ALL_ERROR_DO. cbn [map expand_catch find_handler catch_matches].
    unfold run_handler, bind. rewrite unknown_in_handler. reflexivity.
  - rewrite TC_TRY_disabled. reflexivity.
Qed.

(** X20: logging through [TC_WARN] is filtered twice.  In a build that
    sets none of the configuration macros, [TC_WARN] is compiled out under
    [NDEBUG], whatever the level and the sink are at run time, and is
    [TC_LOG_WARN] otherwise, while [TC_ERROR] is [TC_LOG_ERROR] in both;
    and where [TC_WARN] is compiled in, it still does nothing once the
    minimum level is above [warn]. *)
Theorem warn_is_filtered_twice {U} (vformat : string -> va_list -> string)
    (user_sinks : nat -> log_sink_fn U) (d : build_defines) (loc : source_location)
    (fmt : string) (args : proc U -> va_list) (p : proc U) :
  def_TC_DEBUG d = None ->
  def_TC_RELEASE d = None ->
  def_TC_ENABLE_LOGGING d = None ->
  def_TC_ENABLE_ERROR_LOGGING d = None ->
  TC_WARN vformat user_sinks (pp_true (detect_TC_ENABLE_LOGGING d)) loc fmt args p
  = (Normal tt,
     if def_NDEBUG d then p
     else detail.TC_LOG_WARN vformat user_sinks loc fmt (args p) p)
  /\ TC_ERROR vformat user_sinks (pp_true (detect_TC_ENABLE_ERROR_LOGGING d)) loc fmt args p
     = (Normal tt, detail.TC_LOG_ERROR vformat user_sinks loc fmt (args p) p)
  /\ (level_value detail.warn < runtime_log_level p ->
        TC_WARN vformat user_sinks true loc fmt args p = (Normal tt, p)).
Proof.
  intros Hd Hr Hl He.
  unfold detect_TC_ENABLE_LOGGING, detect_TC_ENABLE_ERROR_LOGGING, TC_DEBUG_on,
    detect_TC_DEBUG. rewrite Hd, Hr, Hl, He.
  split; [ | split].
  - destruct (def_NDEBUG d); reflexivity.
  - reflexivity.
  - intros Hlvl. unfold TC_WARN, exec, detail.TC_LOG_WARN, detail.TC_LOG.
    rewrite logf_filtered by exact Hlvl. reflexivity.
Qed.

(** ** Instances of the further properties *)


Lemma log_run_null_sink_witness :
  let p := log.set_sink None (tests.start []) in
  let evs := [ LogEvent detail.error None 0 None (Some "a") [];
               LogEvent detail.warn None 0 None (Some "b") [] ] in
  runtime_sink p = None /\ log_all tests.vformat tests.sinks evs p = p.
Proof.
  intros p evs. split; [reflexivity | ].
  apply (log_run_null_sink tests.vformat tests.sinks evs p). reflexivity.
Defined.

(** An event logged at [off] while the minimum level is [off]. *)
Lemma off_level_event_passes_witness :
  let p := log.set_sink (Some tests.MemSink_ref)
             (log.set_level detail.off (tests.start [])) in
  In detail.off (detail.event_levels ++ [detail.off])%list
  /\ log.get_level p = detail.off
  /\ log.get_sink p = Some tests.MemSink_ref
  /\ level_value detail.off <= level_value detail.off
  /\ sink_calls (detail.logf tests.vformat tests.sinks detail.off None 0 None (Some "x") [] p)
     = (sink_calls p ++ [SinkCall tests.MemSink_ref detail.off None 0 None (Some "x") []])%list.
Proof.
  intros p.
  split; [simpl; tauto | ]. split; [reflexivity | ]. split; [reflexivity | ].
  split; [simpl; lia | ].
  apply (proj1 (off_level_event_passes tests.vformat tests.sinks detail.off detail.off
                  tests.MemSink_ref None 0 None (Some "x") [] p
                  ltac:(simpl; tauto) ltac:(reflexivity) ltac:(reflexivity))).
  simpl; lia.
Defined.

(** The header's sink replaced by the test's, then one [error] event. *)
Lemma reconfiguration_takes_effect_witness :
  let p := tests.start [] in
  runtime_log_level p <= level_value detail.error
  /\ sink_calls (detail.logf tests.vformat tests.sinks detail.error None 0 None (Some "x") []
                   (log.set_sink (Some tests.MemSink_ref) p))
     = (sink_calls p ++ [SinkCall tests.MemSink_ref detail.error None 0 None (Some "x") []])%list.
Proof.
  intros p. split; [simpl; lia | ].
  apply (proj1 (reconfiguration_takes_effect tests.vformat tests.sinks detail.off
                  detail.error tests.MemSink_ref None 0 None (Some "x") [] p)).
  simpl; lia.
Defined.


(** A release build that defines nothing else, and one [debug] event. *)
Lemma startup_delivery_witness :
  let d := helper_tests.plain_build true in
  def_TC_DEBUG d = None
  /\ def_TC_RELEASE d = None
  /\ log.get_level (boot d tt) = detail.info
  /\ stderr (env (detail.logf tests.vformat (fun _ _ _ _ _ _ _ w => w) detail.debug
                    (Some "m.cpp") 25 (Some "main") (Some "debug message") []
                    (boot d tt))) = "".
Proof.
  intros d. split; [reflexivity | ]. split; [reflexivity | ].
  pose proof (startup_delivery tests.vformat (fun _ _ _ _ _ _ _ w => w) d tt detail.debug
                (Some "m.cpp") 25 (Some "main") (Some "debug message") []
                ltac:(reflexivity) ltac:(reflexivity)) as H.
  cbv zeta in H. destruct H as [H1 [_ [H3 _]]].
  split; [exact H1 | exact H3].
Defined.

(** A build that passes [-DTC_RELEASE=0] and nothing else. *)
Lemma build_type_detection_witness :
  let d := BuildDefines false None (Some 0) None None None in
  def_TC_DEBUG d = None
  /\ def_TC_RELEASE d <> None
  /\ TC_DEBUG_on d = false.
Proof.
  intros d. split; [reflexivity | ]. split; [discriminate | ].
  apply (proj2 (proj2 (build_type_detection d))); [reflexivity | discriminate].
Defined.

(** MSVC with [/EHsc] and [_HAS_EXCEPTIONS] defined as 0. *)
Lemma exceptions_detection_witness :
  let d := helper_tests.plain_build false in
  let t := Toolchain false false true true (Some 0) false in
  def_TC_EXCEPTIONS_ENABLED d = None
  /\ (has_cpp_exceptions t = true \/ has_EXCEPTIONS t = true
      \/ (has_MSC_VER t = true /\ has_CPPUNWIND t = true))
  /\ detect_TC_EXCEPTIONS_ENABLED d t = 1.
Proof.
  intros d t.
  assert (Hind : has_cpp_exceptions t = true \/ has_EXCEPTIONS t = true
                 \/ (has_MSC_VER t = true /\ has_CPPUNWIND t = true))
    by (right; right; split; reflexivity).
  split; [reflexivity | ]. split; [exact Hind | ].
  apply (proj2 (proj2 (proj2 (exceptions_detection d t) ltac:(reflexivity)))). exact Hind.
Defined.

(** [TC_LIKELY(2)] under GCC. *)
Lemma likely_keeps_truth_witness :
  let t := Toolchain true true false false None true in
  is_gnu t = true /\ (TC_LIKELY t 2 = 0 \/ TC_LIKELY t 2 = 1).
Proof.
  intros t. split; [reflexivity | ].
  apply (proj1 (proj1 (proj2 (proj2 (proj2 (likely_keeps_truth t 2)))) ltac:(reflexivity))).
Defined.

(** The body of [TryRunsCatchSkipped], which raises nothing. *)
Lemma modes_agree_without_raise_witness :
  let body : M (Z * Z) unit := tests.assign (fun v => (1, snd v)) in
  let clauses := [TC_CATCH_ALL (tests.assign (fun v : Z * Z => (fst v, 1)))] in
  let p := tests.start (0, 0) in
  (forall (e : exn) (p1 : proc (Z * Z)), body p <> (Raised e, p1))
  /\ TC_TRY true body clauses p = TC_TRY false body clauses p.
Proof.
  intros body clauses p.
  assert (Hno : forall (e : exn) (p1 : proc (Z * Z)), body p <> (Raised e, p1))
    by (intros e p1; discriminate).
  split; [exact Hno | ].
  apply (proj2 (proj1 (modes_agree_without_raise body clauses (@ret (Z * Z) unit tt)
                         (@ret (bool * (Z * Z)) unit tt) p) Hno)).
Defined.

(** [throw 42] against a lone handler for [std::exception]. *)
Lemma unmatched_exception_propagates_witness :
  let body : M Z unit := cpp_throw (thrown_int 42) in
  let clauses := [TC_CATCH (ty_class std_exception) (tests.assign (fun _ : Z => 1))] in
  let p := tests.start 0 in
  body p = (Raised (thrown_int 42), p)
  /\ forallb (fun c => negb (clause_accepts c (thrown_int 42))) clauses = true
  /\ TC_TRY true body clauses p = (Raised (thrown_int 42), p).
Proof.
  intros body clauses p. split; [reflexivity | ]. split; [reflexivity | ].
  apply (proj1 (unmatched_exception_propagates body clauses (thrown_int 42) p p
                  ltac:(reflexivity))).
  reflexivity.
Defined.

(** The handlers of [SpecificBeforeGeneral], the other way round. *)
Lemma base_handler_first_shadows_witness :
  let body : M Z unit := cpp_throw (thrown_obj std_runtime_error "rte") in
  let hG := tests.assign (fun _ : Z => 2) in
  let hS := tests.assign (fun _ : Z => 1) in
  let p := tests.start 0 in
  derives std_runtime_error std_exception = true
  /\ body p = (Raised (thrown_obj std_runtime_error "rte"), p)
  /\ derives std_runtime_error std_runtime_error = true
  /\ TC_TRY true body [TC_CATCH (ty_class std_exception) hG;
                       TC_CATCH (ty_class std_runtime_error) hS] p
     = run_handler (thrown_obj std_runtime_error "rte") hG p.
Proof.
  intros body hG hS p. split; [reflexivity | ]. split; [reflexivity | ].
  split; [reflexivity | ].
  apply (proj2 (base_handler_first_shadows std_exception std_runtime_error body hG hS hS []
                  p ltac:(reflexivity))
           std_runtime_error "rte" p); reflexivity.
Defined.

(** The statements of [InnerCatchRethrowOuterHandles]. *)
Lemma rethrow_reaches_outer_once_witness :
  let e := thrown_obj std_runtime_error "rte" in
  let body : M (Z * Z) unit := cpp_throw e in
  let work := tests.assign (fun v : Z * Z => (1, snd v)) in
  let h_out := tests.assign (fun v : Z * Z => (fst v, 1)) in
  let p := tests.start (0, 0) in
  let p2 := push_handled e (tests.start (1, 0)) in
  body p = (Raised e, p)
  /\ catch_matches (catch_type (ty_class std_runtime_error)) e = true
  /\ work (push_handled e p) = (Normal tt, p2)
  /\ handled p2 = (e :: handled p)%list
  /\ catch_matches (catch_type (ty_class std_exception)) e = true
  /\ TC_TRY true
       (TC_TRY true body
          [TC_CATCH (ty_class std_runtime_error)
             (work ;; TC_RETHROW true TC_ABORT_default (tests.here 34))])
       [TC_CATCH (ty_class std_exception) h_out] p
     = run_handler e h_out (pop_handled p2).
Proof.
  intros e body work h_out p p2.
  split; [reflexivity | ]. split; [reflexivity | ]. split; [reflexivity | ].
  split; [reflexivity | ]. split; [reflexivity | ].
  apply (proj2 (rethrow_reaches_outer_once TC_ABORT_default (tests.here 34)
                  (ty_class std_runtime_error) (ty_class std_exception) body work h_out
                  [] [] e p p p2
                  ltac:(reflexivity) ltac:(reflexivity) ltac:(reflexivity)
                  ltac:(reflexivity) ltac:(reflexivity))).
Defined.

(** [TC_RETHROW()] at start-up, with exceptions enabled. *)
Lemma rethrow_outside_handler_terminates_witness :
  let p := tests.start tt in
  handled p = []
  /\ fst (TC_RETHROW true TC_ABORT_default (tests.here 1) p) = Terminated.
Proof.
  intros p. split; [reflexivity | ].
  apply (proj1 (rethrow_outside_handler_terminates true (tests.here 1) (thrown_int 0) p)).
  reflexivity.
Defined.

(** The statement of [StdCatchWarnErrorMacrosCompile], in a debug build. *)
Lemma ready_made_handlers_log_and_swallow_witness :
  let e := thrown_obj std_runtime_error "x" in
  let body : M (list string) unit := cpp_throw e in
  let p := tests.start [] in
  body p = (Raised e, p)
  /\ TC_TRY true body
       [ TC_CATCH_STD_WARN tests.vformat tests.sinks true true (tests.here 9);
         TC_CATCH_ALL_ERROR tests.vformat tests.sinks true (tests.here 10) ] p
     = (Normal tt,
        if is_std_exception e
        then (if true
              then detail.TC_LOG_WARN tests.vformat tests.sinks (tests.here 9) "exception: %s"
                                      [va_str (what_of e)] p
              else p)
        else (if true
              then detail.TC_LOG_ERROR tests.vformat tests.sinks (tests.here 10)
                                       "unknown exception" [] p
              else p)).
Proof.
  intros e body p. split; [reflexivity | ].
  apply (ready_made_handlers_log_and_swallow tests.vformat tests.sinks true true body
           (tests.here 9) (tests.here 10) e p p).
  reflexivity.
Defined.

(** The statement of [AllErrorDo]. *)
Lemma do_handlers_run_body_once_witness :
  let e := thrown_int 1 in
  let body : M (list string) unit := cpp_throw e in
  let BODY : M (list string) unit := tests.assign (fun v => "ran" :: v) in
  let p := tests.start [] in
  body p = (Raised e, p)
  /\ TC_TRY true body
       [TC_CATCH_ALL_ERROR_DO tests.vformat tests.sinks true (tests.here 19) BODY] p
     = run_handler e BODY
         (if true
          then detail.TC_LOG_ERROR tests.vformat tests.sinks (tests.here 19)
                                   "unknown exception" [] p
          else p).
Proof.
  intros e body BODY p. split; [reflexivity | ].
  apply (proj1 (proj2 (do_handlers_run_body_once tests.vformat tests.sinks true true body BODY
                         (tests.here 19) e p p ltac:(reflexivity)))).
Defined.

(** [TC_WARN] in a release build that defines nothing else. *)
Lemma warn_is_filtered_twice_witness :
  let d := helper_tests.plain_build true in
  let p := tests.start [] in
  def_TC_DEBUG d = None
  /\ def_TC_RELEASE d = None
  /\ def_TC_ENABLE_LOGGING d = None
  /\ def_TC_ENABLE_ERROR_LOGGING d = None
  /\ TC_WARN tests.vformat tests.sinks (pp_true (detect_TC_ENABLE_LOGGING d)) (tests.here 48)
             "caught unknown exception in example" no_args p
     = (Normal tt, p).
Proof.
  intros d p. repeat (split; [reflexivity | ]).
  apply (proj1 (warn_is_filtered_twice tests.vformat tests.sinks d (tests.here 48)
                  "caught unknown exception in example" no_args p
                  ltac:(reflexivity) ltac:(reflexivity) ltac:(reflexivity)
                  ltac:(reflexivity))).
Defined.

(** An operation that returns the error code -1, and [throw 42]. *)
Lemma guard_never_raises_witness :
  let p := tests.start tt in
  let expr : M (bool * unit) Z := outer (may_throw false TC_ABORT_default (tests.here 5) (-1)) in
  let q := with_vars (true, tt) p in
  expr (with_vars (true, vars (env p)) p) = (Normal (-1), q)
  /\ TC_GUARD false expr p = (Normal (fst (vars (env q))), with_vars (snd (vars (env q))) q).
Proof.
  intros p expr q. split; [reflexivity | ].
  apply (proj1 (proj2 (guard_never_raises false expr p))) with (v := -1). reflexivity.
Defined.

Lemma guard_of_plain_operation_witness :
  let p := tests.start tt in
  let good : M unit Z := may_throw false TC_ABORT_default (tests.here 5) (-1) in
  let bad : M unit Z := cpp_throw (thrown_int 42) in
  (good p = (Normal (-1), p) /\ TC_GUARD false (outer good) p = (Normal true, p))
  /\ (bad p = (Raised (thrown_int 42), p) /\ TC_GUARD true (outer bad) p = (Normal false, p)).
Proof.
  intros p good bad. split; (split; [reflexivity | ]).
  - apply (proj1 (guard_of_plain_operation false good p TC_ABORT_default (tests.here 5)))
      with (v := -1). reflexivity.
  - apply (proj1 (proj2 (guard_of_plain_operation true bad p TC_ABORT_default (tests.here 5))))
      with (e := thrown_int 42). reflexivity.
Defined.
